(** * The FashionMNIST quickstart notebook: model, training, evaluation,
      checkpointing and inference

    A shallow embedding of [introduction-to-pytorch-8-full-process.ipynb].
    Numbers are exact rationals ([Q]); tensors are nested lists; the
    notebook's mutable objects (the model with its parameters and gradient
    buffers, the output stream, the checkpoint files) live in one explicit
    state that every operation threads through a state-and-exception monad.
    The loss function and the automatic differentiation engine belong to the
    tensor library and are taken as parameters of the development. *)

From Stdlib Require Import List ZArith QArith String Bool Arith Lia.
From stdpp Require Import base list gmap strings.
Import ListNotations.

Local Open Scope nat_scope.

(** ** Exceptions and results *)

Inductive error : Type :=
| ShapeError          (* RuntimeError: shapes cannot be multiplied / added *)
| ZeroDivisionError
| IndexError
| FileNotFoundError
| StateDictError      (* RuntimeError: missing / unexpected key, size mismatch *)
| NoGradError.        (* RuntimeError: tensor does not require grad *)

Inductive result (A : Type) : Type :=
| Ok (a : A)
| Raise (e : error).
Arguments Ok {A} a.
Arguments Raise {A} e.

Definition rbind {A B} (r : result A) (k : A -> result B) : result B :=
  match r with
  | Ok a => k a
  | Raise e => Raise e
  end.

Fixpoint mapR {A B} (f : A -> result B) (l : list A) : result (list B) :=
  match l with
  | [] => Ok []
  | a :: l' => rbind (f a) (fun b => rbind (mapR f l') (fun bs => Ok (b :: bs)))
  end.

(** ** Tensors *)

Module Tensor.

(** The tensors of a layer are one-dimensional (a bias) or two-dimensional
    (a weight, stored as [out_features] rows of [in_features] entries). *)
Inductive t : Type :=
| T1 (v : list Q)
| T2 (m : list (list Q)).

Definition vzip (f : Q -> Q -> Q) (a b : list Q) : result (list Q) :=
  if length a =? length b then Ok (zip_with f a b) else Raise ShapeError.

Fixpoint mzip (f : Q -> Q -> Q) (a b : list (list Q)) : result (list (list Q)) :=
  match a, b with
  | [], [] => Ok []
  | ra :: a', rb :: b' =>
      rbind (vzip f ra rb) (fun r => rbind (mzip f a' b') (fun m => Ok (r :: m)))
  | _, _ => Raise ShapeError
  end.

(** Element-wise binary operation; operands of different shapes raise. *)
Definition zip (f : Q -> Q -> Q) (a b : t) : result t :=
  match a, b with
  | T1 x, T1 y => rbind (vzip f x y) (fun v => Ok (T1 v))
  | T2 x, T2 y => rbind (mzip f x y) (fun m => Ok (T2 m))
  | _, _ => Raise ShapeError
  end.

Definition map (f : Q -> Q) (a : t) : t :=
  match a with
  | T1 x => T1 (List.map f x)
  | T2 x => T2 (List.map (List.map f) x)
  end.

(** The shape: the length of a vector, the row lengths of a matrix.  Two
    tensors have the same shape exactly when [zip] accepts them. *)
Definition shape (a : t) : nat + list nat :=
  match a with
  | T1 x => inl (length x)
  | T2 x => inr (List.map (@length Q) x)
  end.

Definition dot (a b : list Q) : Q :=
  fold_right Qplus 0%Q (zip_with Qmult a b).

(** [torch.relu]: [max(0, x)]. *)
Definition relu (x : Q) : Q := if Qle_bool 0 x then x else 0%Q.

(** [torch.nn.functional.linear]: [x W^T + b] for one input row. *)
Definition linear (x : list Q) (W b : t) : result (list Q) :=
  match W, b with
  | T2 rows, T1 bs =>
      if forallb (fun r => length r =? length x) rows && (length rows =? length bs)
      then Ok (zip_with (fun r bi => (dot x r + bi)%Q) rows bs)
      else Raise ShapeError
  | _, _ => Raise ShapeError
  end.

(** [argmax]: index of the first maximal entry; an empty row raises. *)
Fixpoint argmax_from (best_i : nat) (best : Q) (i : nat) (l : list Q) : nat :=
  match l with
  | [] => best_i
  | x :: l' =>
      if Qle_bool x best
      then argmax_from best_i best (S i) l'
      else argmax_from i x (S i) l'
  end.

Definition argmax (l : list Q) : result nat :=
  match l with
  | [] => Raise IndexError
  | x :: l' => Ok (argmax_from 0 x 1 l')
  end.

End Tensor.

Abbreviation Tensor := Tensor.t.

(** ** The model

    [NeuralNetwork] has one [nn.Flatten] and the [nn.Sequential] stack
    [Linear(28*28, 512); ReLU; Linear(512, 512); ReLU; Linear(512, 10); ReLU].
    An [NNParameter] (the library's [nn.Parameter]) carries its value and
    its gradient buffer ([.grad]). *)

Record NNParameter : Type := { data : Tensor; grad : option Tensor }.

Record Linear : Type := { weight : NNParameter; bias : NNParameter }.

Inductive Layer : Type :=
| LLinear (l : Linear)
| LReLU.

Record NeuralNetwork : Type := {
  fc0 : Linear;             (* linear_relu_stack.0 *)
  fc2 : Linear;             (* linear_relu_stack.2 *)
  fc4 : Linear;             (* linear_relu_stack.4 *)
  training : bool
}.

Definition linear_relu_stack (m : NeuralNetwork) : list Layer :=
  [LLinear (fc0 m); LReLU; LLinear (fc2 m); LReLU; LLinear (fc4 m); LReLU].

(** [nn.Linear(in_features, out_features)]: a fresh layer whose entries are
    drawn from the random source [rng] (indexed by row and column; the bias
    takes the column after the last weight column). *)
Definition nn_Linear (rng : nat -> nat -> Q) (in_features out_features : nat) : Linear :=
  {| weight :=
      {| data := Tensor.T2 (map (fun i => map (fun j => rng i j) (seq 0 in_features))
                                (seq 0 out_features));
         grad := None |};
     bias :=
      {| data := Tensor.T1 (map (fun i => rng i in_features) (seq 0 out_features));
         grad := None |} |}.

(** [NeuralNetwork()]: the constructor; [rng k] is the random source of the
    stack's [k]-th layer. *)
Definition NeuralNetwork_init (rng : nat -> nat -> nat -> Q) : NeuralNetwork :=
  {| fc0 := nn_Linear (rng 0) (28 * 28) 512;
     fc2 := nn_Linear (rng 2) 512 512;
     fc4 := nn_Linear (rng 4) 512 10;
     training := true |}.

Definition Layer_forward (l : Layer) (x : list Q) : result (list Q) :=
  match l with
  | LLinear fc => Tensor.linear x (data (weight fc)) (data (bias fc))
  | LReLU => Ok (map Tensor.relu x)
  end.

(** [nn.Sequential.forward]: feed the input through the layers in order. *)
Fixpoint Sequential_forward (ls : list Layer) (x : list Q) : result (list Q) :=
  match ls with
  | [] => Ok x
  | l :: ls' => rbind (Layer_forward l x) (Sequential_forward ls')
  end.

(** An image is a [C x H x W] grid.  The model is called on a batch
    [N x C x H x W] in the loops and on a single image in the inference
    cell. *)
Abbreviation Image := (list (list (list Q))).

Inductive Input : Type :=
| Batch4 (X : list Image)
| Single3 (x : Image).

(** [nn.Flatten()] ([start_dim=1]): keeps dimension 0 and flattens the rest. *)
Definition flatten (x : Input) : list (list Q) :=
  match x with
  | Batch4 X => map (fun img => concat (concat img)) X
  | Single3 img => map (@concat Q) img
  end.

(** [NeuralNetwork.forward]. *)
Definition forward (m : NeuralNetwork) (x : Input) : result (list (list Q)) :=
  let x := flatten x in
  let logits := mapR (Sequential_forward (linear_relu_stack m)) x in
  logits.

(** [model.parameters()], in registration order. *)
Definition parameters (m : NeuralNetwork) : list NNParameter :=
  [weight (fc0 m); bias (fc0 m); weight (fc2 m); bias (fc2 m);
   weight (fc4 m); bias (fc4 m)].

Definition Linear_update (f : nat -> NNParameter -> result NNParameter)
    (i : nat) (l : Linear) : result Linear :=
  rbind (f i (weight l)) (fun w =>
  rbind (f (S i) (bias l)) (fun b =>
  Ok {| weight := w; bias := b |})).

(** Replace every parameter [p], the [i]-th of [parameters], by [f i p]. *)
Definition update_parameters (f : nat -> NNParameter -> result NNParameter)
    (m : NeuralNetwork) : result NeuralNetwork :=
  rbind (Linear_update f 0 (fc0 m)) (fun l0 =>
  rbind (Linear_update f 2 (fc2 m)) (fun l2 =>
  rbind (Linear_update f 4 (fc4 m)) (fun l4 =>
  Ok {| fc0 := l0; fc2 := l2; fc4 := l4; training := training m |}))).

(** ** Data *)

(** A dataset remembers which split it was asked for ([train=True] or
    [train=False]) and holds its (image, label) pairs in order. *)
Record Dataset : Type := { ds_train : bool; samples : list (Image * nat) }.

(** [datasets.FashionMNIST(root, train, download, transform)]; [source] is
    the downloaded archive, one list of pairs per split. *)
Definition FashionMNIST (source : bool -> list (Image * nat)) (train : bool) : Dataset :=
  {| ds_train := train; samples := source train |}.

Record DataLoader : Type := { dataset : Dataset; dl_batch_size : nat }.

(** The sequential batch sampler: append to the current batch and yield it
    when it holds [bs] items; a non-empty rest is yielded at the end. *)
Fixpoint batch_sampler {A} (bs : nat) (cur : list A) (l : list A) : list (list A) :=
  match l with
  | [] => match cur with [] => [] | _ => [cur] end
  | a :: l' =>
      let cur' := cur ++ [a] in
      if length cur' =? bs then cur' :: batch_sampler bs [] l'
      else batch_sampler bs cur' l'
  end.

(** Iterating a [DataLoader]: the batches, each collated into the stacked
    images [X] and the labels [y]. *)
Definition batches (dl : DataLoader) : list (list Image * list nat) :=
  map (fun b => (map fst b, map snd b))
      (batch_sampler (dl_batch_size dl) [] (samples (dataset dl))).

(** ** The notebook's state *)

(** What a [print] call writes, with the numbers kept as numbers. *)
Inductive Line : Type :=
| LEpoch (t : nat)                           (* Epoch {t+1} and the rule *)
| LProgress (loss : Q) (current size : nat)  (* loss: {loss} [{current}/{size}] *)
| LTest (accuracy avg_loss : Q)              (* Accuracy: {100*correct}%, Avg loss: {test_loss} *)
| LDone
| LSaved
| LPredicted (predicted actual : string).

(** The calls into the tensor library, in program order.  A forward call
    records whether gradient tracking was enabled when it ran. *)
Inductive Call : Type :=
| CForward (tracking : bool)
| CLoss
| CZeroGrad
| CBackward
| CStep.

(** [model.state_dict()] is an ordered dictionary from names to tensors. *)
Abbreviation StateDict := (list (string * Tensor)).

Record State : Type := {
  model : NeuralNetwork;                 (* the object bound to [model] *)
  grad_enabled : bool;                   (* torch.is_grad_enabled() *)
  stdout : list Line;
  calls : list Call;
  files : gmap string StateDict          (* checkpoint files by path *)
}.

Definition set_model (m : NeuralNetwork) (st : State) : State :=
  {| model := m; grad_enabled := grad_enabled st; stdout := stdout st;
     calls := calls st; files := files st |}.

Definition set_grad_enabled (b : bool) (st : State) : State :=
  {| model := model st; grad_enabled := b; stdout := stdout st;
     calls := calls st; files := files st |}.

Definition add_line (l : Line) (st : State) : State :=
  {| model := model st; grad_enabled := grad_enabled st; stdout := stdout st ++ [l];
     calls := calls st; files := files st |}.

Definition add_call (c : Call) (st : State) : State :=
  {| model := model st; grad_enabled := grad_enabled st; stdout := stdout st;
     calls := calls st ++ [c]; files := files st |}.

Definition set_files (fs : gmap string StateDict) (st : State) : State :=
  {| model := model st; grad_enabled := grad_enabled st; stdout := stdout st;
     calls := calls st; files := fs |}.

(** ** The monad of notebook code: state and exceptions *)

Definition M (A : Type) : Type := State -> result (A * State).

#[global] Instance M_ret : MRet M := fun A a st => Ok (a, st).

#[global] Instance M_bind : MBind M := fun A B k c st =>
  match c st with
  | Ok (a, st') => k a st'
  | Raise e => Raise e
  end.

Definition lift {A} (r : result A) : M A := fun st =>
  match r with
  | Ok a => Ok (a, st)
  | Raise e => Raise e
  end.

Definition get_model : M NeuralNetwork := fun st => Ok (model st, st).

Definition put_model (m : NeuralNetwork) : M unit := fun st => Ok (tt, set_model m st).

Definition print (l : Line) : M unit := fun st => Ok (tt, add_line l st).

(** [with torch.no_grad(): body]: tracking is switched off for the body and
    the previous mode is restored afterwards. *)
Definition no_grad {A} (body : M A) : M A := fun st =>
  let prev := grad_enabled st in
  match body (set_grad_enabled false st) with
  | Ok (a, st') => Ok (a, set_grad_enabled prev st')
  | Raise e => Raise e
  end.

(** ** Calls into the tensor library *)

(** The output of [model(X)]: the values and, when tracking was enabled,
    the graph node ([grad_fn]) that remembers the input. *)
Record Output : Type := { logits : list (list Q); grad_fn : option Input }.

Abbreviation LossFn := (list (list Q) -> list nat -> Q).

(** A loss tensor: its value ([.item()]) and the graph it came from. *)
Record Loss : Type := {
  item : Q;
  loss_grad_fn : option (LossFn * Input * list nat)
}.

(** [torch.optim.SGD(model.parameters(), lr)]: the optimizer holds the
    model's own parameter objects, so its updates act on [model] in the
    state.  (The notebook does not use the optimizer after it rebinds
    [model] in the loading cell.) *)
Record SGD : Type := { lr : Q }.

(** [model(X)]. *)
Definition call_model (x : Input) : M Output := fun st =>
  match forward (model st) x with
  | Ok out =>
      Ok ({| logits := out; grad_fn := if grad_enabled st then Some x else None |},
          add_call (CForward (grad_enabled st)) st)
  | Raise e => Raise e
  end.

(** [loss_fn(pred, y)]. *)
Definition call_loss_fn (loss_fn : LossFn) (pred : Output) (y : list nat) : M Loss :=
  fun st =>
  Ok ({| item := loss_fn (logits pred) y;
         loss_grad_fn := match grad_fn pred with
                         | Some x => Some (loss_fn, x, y)
                         | None => None
                         end |},
      add_call CLoss st).

(** [model.eval()]. *)
Definition model_eval : M unit := fun st =>
  let m := model st in
  Ok (tt, set_model {| fc0 := fc0 m; fc2 := fc2 m; fc4 := fc4 m; training := false |} st).

Definition zero_param (p : NNParameter) : NNParameter :=
  {| data := data p; grad := option_map (Tensor.map (fun _ => 0%Q)) (grad p) |}.

(** [optimizer.zero_grad()]: every gradient buffer that exists is zeroed in
    place (the behaviour of the library before its version 2; later versions
    reset the buffers to [None], and the next [backward] then stores the
    same gradient). *)
Definition zero_grad (optimizer : SGD) : M unit := fun st =>
  match update_parameters (fun _ p => Ok (zero_param p)) (model st) with
  | Ok m => Ok (tt, add_call CZeroGrad (set_model m st))
  | Raise e => Raise e
  end.

(** Accumulating a gradient into a parameter: [.grad] is set when absent and
    added to otherwise. *)
Definition accumulate_grad (g : Tensor) (p : NNParameter) : result NNParameter :=
  match grad p with
  | None => Ok {| data := data p; grad := Some g |}
  | Some old =>
      rbind (Tensor.zip Qplus old g) (fun s => Ok {| data := data p; grad := Some s |})
  end.

(** One SGD update of a parameter: [p.add_(p.grad, alpha=-lr)]; a parameter
    without gradient is skipped. *)
Definition sgd_param (optimizer : SGD) (p : NNParameter) : result NNParameter :=
  match grad p with
  | None => Ok p
  | Some g =>
      rbind (Tensor.zip (fun d gi => (d + - lr optimizer * gi)%Q) (data p) g)
            (fun d' => Ok {| data := d'; grad := grad p |})
  end.

(** [optimizer.step()]. *)
Definition step (optimizer : SGD) : M unit := fun st =>
  match update_parameters (fun _ p => sgd_param optimizer p) (model st) with
  | Ok m => Ok (tt, add_call CStep (set_model m st))
  | Raise e => Raise e
  end.

Section Notebook.

(** The differentiation engine: [autograd loss_fn theta x y i] is the
    derivative of [loss_fn (forward theta x) y] with respect to the [i]-th
    parameter, at the parameter values [theta]. *)
Variable autograd : LossFn -> list Tensor -> Input -> list nat -> nat -> Tensor.

(** [loss.backward()]: the gradients of this loss are accumulated into the
    parameters' buffers; a loss computed without tracking raises. *)
Definition backward (loss : Loss) : M unit := fun st =>
  match loss_grad_fn loss with
  | None => Raise NoGradError
  | Some (loss_fn, x, y) =>
      let theta := map data (parameters (model st)) in
      match update_parameters
              (fun i p => accumulate_grad (autograd loss_fn theta x y i) p) (model st) with
      | Ok m => Ok (tt, add_call CBackward (set_model m st))
      | Raise e => Raise e
      end
  end.

(** The global [loss_fn] ([nn.CrossEntropyLoss()]) and the downloaded
    FashionMNIST archive. *)
Variable loss_fn : LossFn.
Variable source : bool -> list (Image * nat).

(** *** Loops *)

Fixpoint for_each {A} (l : list A) (body : A -> M unit) : M unit :=
  match l with
  | [] => mret tt
  | a :: l' => body a;; for_each l' body
  end.

Fixpoint fold_each {A B} (l : list A) (body : B -> A -> M B) (acc : B) : M B :=
  match l with
  | [] => mret acc
  | a :: l' => acc' ← body acc a; fold_each l' body acc'
  end.

Fixpoint enumerate_from {A} (k : nat) (l : list A) : list (nat * A) :=
  match l with
  | [] => []
  | a :: l' => (k, a) :: enumerate_from (S k) l'
  end.

Definition enumerate {A} (l : list A) : list (nat * A) := enumerate_from 0 l.

(** *** Working with data *)

Definition training_data : Dataset := FashionMNIST source true.

Definition test_data : Dataset := FashionMNIST source false.

Definition batch_size : nat := 64.

Definition train_dataloader : DataLoader :=
  {| dataset := training_data; dl_batch_size := batch_size |}.

Definition test_dataloader : DataLoader :=
  {| dataset := training_data; dl_batch_size := batch_size |}.

(** *** Optimizing the model parameters *)

Definition learning_rate : Q := 1 # 1000.

Definition optimizer : SGD := {| lr := learning_rate |}.

(** The body of the loop of [train] for the batch numbered [batch]. *)
Definition train_batch (size : nat) (loss_fn : LossFn) (optimizer : SGD)
    (batch : nat) (Xy : list Image * list nat) : M unit :=
  let '(X, y) := Xy in
  (* X.to(device), y.to(device): the values do not change *)
  (* Compute prediction error *)
  pred ← call_model (Batch4 X);
  loss ← call_loss_fn loss_fn pred y;
  (* Backpropagation *)
  zero_grad optimizer;;
  backward loss;;
  step optimizer;;
  (* Print loss *)
  if batch mod 100 =? 0 then
    let '(loss, current) := (item loss, batch * length X) in
    print (LProgress loss current size)
  else mret tt.

Definition train (dataloader : DataLoader) (loss_fn : LossFn) (optimizer : SGD) : M unit :=
  let size := length (samples (dataset dataloader)) in
  for_each (enumerate (batches dataloader))
           (fun '(batch, Xy) => train_batch size loss_fn optimizer batch Xy).

(** [(pred.argmax(1) == y).type(torch.float).sum().item()]. *)
Definition count_correct (pred : list (list Q)) (y : list nat) : result Q :=
  rbind (mapR Tensor.argmax pred) (fun am =>
  if length am =? length y
  then Ok (fold_right Qplus 0%Q (zip_with (fun a l => if a =? l then 1%Q else 0%Q) am y))
  else Raise ShapeError).

(** [x / n] in Python. *)
Definition truediv (x : Q) (n : nat) : result Q :=
  if n =? 0 then Raise ZeroDivisionError else Ok (x / inject_Z (Z.of_nat n))%Q.

(** The body of the loop of [test]; the accumulator holds [test_loss] and
    [correct]. *)
Definition test_batch (acc : Q * Q) (Xy : list Image * list nat) : M (Q * Q) :=
  let '(test_loss, correct) := acc in
  let '(X, y) := Xy in
  pred ← call_model (Batch4 X);
  loss ← call_loss_fn loss_fn pred y;
  c ← lift (count_correct (logits pred) y);
  mret ((test_loss + item loss)%Q, (correct + c)%Q).

Definition test (dataloader : DataLoader) : M unit :=
  let size := length (samples (dataset dataloader)) in
  model_eval;;
  acc ← no_grad (fold_each (batches dataloader) test_batch (0%Q, 0%Q));
  let '(test_loss, correct) := acc in
  test_loss ← lift (truediv test_loss size);
  correct ← lift (truediv correct size);
  print (LTest (100 * correct)%Q test_loss).

Definition epochs : nat := 15.

Definition epoch (t : nat) : M unit :=
  print (LEpoch (t + 1));;
  train train_dataloader loss_fn optimizer;;
  test test_dataloader.

Definition training_cell : M unit :=
  for_each (seq 0 epochs) epoch;;
  print LDone.

(** *** Saving and loading models *)

Definition parameter_names : list string :=
  ["linear_relu_stack.0.weight"; "linear_relu_stack.0.bias";
   "linear_relu_stack.2.weight"; "linear_relu_stack.2.bias";
   "linear_relu_stack.4.weight"; "linear_relu_stack.4.bias"]%string.

(** [model.state_dict()]. *)
Definition state_dict (m : NeuralNetwork) : StateDict :=
  combine parameter_names (map data (parameters m)).

(** [torch.save(obj, f)]: the file at the path now holds the dictionary. *)
Definition torch_save (obj : StateDict) (f : string) : M unit := fun st =>
  Ok (tt, set_files (<[f := obj]> (files st)) st).

(** [torch.load(f)]. *)
Definition torch_load (f : string) : M StateDict := fun st =>
  match files st !! f with
  | Some obj => Ok (obj, st)
  | None => Raise FileNotFoundError
  end.

Fixpoint assoc (k : string) (d : StateDict) : option Tensor :=
  match d with
  | [] => None
  | (k', v) :: d' => if String.eqb k k' then Some v else assoc k d'
  end.

(** Copying one entry of a loaded dictionary into the parameter of that
    name: a missing key or a different shape raises. *)
Definition load_param (sd : StateDict) (i : nat) (p : NNParameter) : result NNParameter :=
  match assoc (nth i parameter_names ""%string) sd with
  | None => Raise StateDictError
  | Some v =>
      if decide (Tensor.shape v = Tensor.shape (data p))
      then Ok {| data := v; grad := grad p |}
      else Raise StateDictError
  end.

(** [model.load_state_dict(sd)] (strict). *)
Definition load_state_dict (sd : StateDict) : M unit := fun st =>
  if forallb (fun k => existsb (String.eqb k) parameter_names) (map fst sd)
  then match update_parameters (load_param sd) (model st) with
       | Ok m => Ok (tt, set_model m st)
       | Raise e => Raise e
       end
  else Raise StateDictError.

Definition saving_cell : M unit :=
  m ← get_model;
  torch_save (state_dict m) "data/model.pth";;
  print LSaved.

Definition loading_cell (rng : nat -> nat -> nat -> Q) : M unit :=
  put_model (NeuralNetwork_init rng);;
  sd ← torch_load "data/model.pth";
  load_state_dict sd.

(** *** Inference *)

Definition classes : list string :=
  ["T-shirt/top"; "Trouser"; "Pullover"; "Dress"; "Coat";
   "Sandal"; "Shirt"; "Sneaker"; "Bag"; "Ankle boot"]%string.

(** [l[i]] for a Python list or a tensor's first dimension. *)
Definition getitem {A} (l : list A) (i : nat) : result A :=
  match nth_error l i with
  | Some a => Ok a
  | None => Raise IndexError
  end.

Definition inference_cell : M unit :=
  model_eval;;
  xy ← lift (getitem (samples test_data) 0);
  let '(x, y) := xy in
  no_grad (
    pred ← call_model (Single3 x);
    pred0 ← lift (getitem (logits pred) 0);
    k ← lift (Tensor.argmax pred0);
    predicted ← lift (getitem classes k);
    actual ← lift (getitem classes y);
    print (LPredicted predicted actual)).

End Notebook.

(** ** Notions used to state the properties *)

(** *** Shapes *)

(** [Linear_dims l i o]: the layer maps [i] inputs to [o] outputs. *)
Definition Linear_dims (l : Linear) (i o : nat) : bool :=
  match data (weight l), data (bias l) with
  | Tensor.T2 rows, Tensor.T1 bs =>
      (length rows =? o) && (length bs =? o) && forallb (fun r => length r =? i) rows
  | _, _ => false
  end.

(** The layer widths of a network: input, two hidden widths, output. *)
Definition net_dims (m : NeuralNetwork) (d0 d1 d2 d3 : nat) : bool :=
  Linear_dims (fc0 m) d0 d1 && Linear_dims (fc2 m) d1 d2 && Linear_dims (fc4 m) d2 d3.

(** A [C x H x W] image. *)
Definition image_dims (C H W : nat) (img : Image) : bool :=
  (length img =? C)
  && forallb (fun ch => (length ch =? H) && forallb (fun r => length r =? W) ch) img.

(** Every gradient buffer that exists has the shape of its parameter (the
    tensor library keeps this invariant). *)
Definition grads_ok (m : NeuralNetwork) : bool :=
  forallb (fun p => match grad p with
                    | None => true
                    | Some g => bool_decide (Tensor.shape g = Tensor.shape (data p))
                    end)
          (parameters m).

(** The differentiation engine returns gradients of the parameters' shapes. *)
Definition autograd_shaped
    (autograd : LossFn -> list Tensor -> Input -> list nat -> nat -> Tensor) : Prop :=
  forall loss_fn theta x y i t,
    theta !! i = Some t -> Tensor.shape (autograd loss_fn theta x y i) = Tensor.shape t.

(** *** The network as a formula *)

(** [values m]: the parameter values, in the order of [parameters]. *)
Definition values (m : NeuralNetwork) : list Tensor := map data (parameters m).

(** The affine map of a layer on one row. *)
Definition affine (l : Linear) (x : list Q) : list Q :=
  match data (weight l), data (bias l) with
  | Tensor.T2 rows, Tensor.T1 bs =>
      zip_with (fun r bi => (Tensor.dot x r + bi)%Q) rows bs
  | _, _ => []
  end.

Definition hidden1 (m : NeuralNetwork) (x : list Q) : list Q :=
  map Tensor.relu (affine (fc0 m) x).

Definition hidden2 (m : NeuralNetwork) (x : list Q) : list Q :=
  map Tensor.relu (affine (fc2 m) (hidden1 m x)).

(** The output row for one flattened input row. *)
Definition mlp (m : NeuralNetwork) (x : list Q) : list Q :=
  map Tensor.relu (affine (fc4 m) (hidden2 m x)).

(** The output of the model on a batch of images. *)
Definition batch_logits (m : NeuralNetwork) (X : list Image) : list (list Q) :=
  map (fun img => mlp m (concat (concat img))) X.

(** *** One gradient step as a function *)

(** Element-wise operation on tensors of one shape. *)
Definition zip_total (f : Q -> Q -> Q) (a b : Tensor) : Tensor :=
  match a, b with
  | Tensor.T1 x, Tensor.T1 y => Tensor.T1 (zip_with f x y)
  | Tensor.T2 x, Tensor.T2 y => Tensor.T2 (zip_with (zip_with f) x y)
  | _, _ => a
  end.

Definition Linear_map (f : nat -> NNParameter -> NNParameter) (i : nat) (l : Linear) : Linear :=
  {| weight := f i (weight l); bias := f (S i) (bias l) |}.

Definition map_parameters (f : nat -> NNParameter -> NNParameter) (m : NeuralNetwork)
  : NeuralNetwork :=
  {| fc0 := Linear_map f 0 (fc0 m); fc2 := Linear_map f 2 (fc2 m);
     fc4 := Linear_map f 4 (fc4 m); training := training m |}.

(** The parameter [p], the [i]-th, after one step on the batch [(X, y)]
    taken at the values [theta]: its buffer holds the gradient of this batch
    and its value has moved against it by the learning rate. *)
Definition trained_param
    (autograd : LossFn -> list Tensor -> Input -> list nat -> nat -> Tensor)
    (loss_fn : LossFn) (optimizer : SGD) (theta : list Tensor)
    (X : list Image) (y : list nat) (i : nat) (p : NNParameter) : NNParameter :=
  let g := autograd loss_fn theta (Batch4 X) y i in
  {| data := zip_total (fun d gi => (d + - lr optimizer * gi)%Q) (data p) g;
     grad := Some g |}.

Definition trained_model
    (autograd : LossFn -> list Tensor -> Input -> list nat -> nat -> Tensor)
    (loss_fn : LossFn) (optimizer : SGD) (m : NeuralNetwork)
    (Xy : list Image * list nat) : NeuralNetwork :=
  map_parameters (trained_param autograd loss_fn optimizer (values m) (fst Xy) (snd Xy)) m.

(** The model before the batch numbered [k] of the list [bs]. *)
Definition model_before
    (autograd : LossFn -> list Tensor -> Input -> list nat -> nat -> Tensor)
    (loss_fn : LossFn) (optimizer : SGD) (m : NeuralNetwork)
    (bs : list (list Image * list nat)) (k : nat) : NeuralNetwork :=
  fold_left (trained_model autograd loss_fn optimizer) (take k bs) m.

(** The library calls of one iteration of the training loop. *)
Definition step_calls : list Call :=
  [CForward true; CLoss; CZeroGrad; CBackward; CStep].

(** The order of the contract of the training loop as the specification
    words it: forward, loss, gradients, update, then discarding the
    gradients. *)
Definition contract_calls : list Call :=
  [CForward true; CLoss; CBackward; CStep; CZeroGrad].

(** One iteration in the order of the contract, to compare with
    [train_batch]. *)
Definition contract_train_batch
    (autograd : LossFn -> list Tensor -> Input -> list nat -> nat -> Tensor)
    (loss_fn : LossFn) (optimizer : SGD) (Xy : list Image * list nat) : M unit :=
  let '(X, y) := Xy in
  pred ← call_model (Batch4 X);
  loss ← call_loss_fn loss_fn pred y;
  backward autograd loss;;
  step optimizer;;
  zero_grad optimizer.

(** The state after one iteration of the training loop that started from
    [st] and whose forward pass returned [out]. *)
Definition after_train_batch
    (autograd : LossFn -> list Tensor -> Input -> list nat -> nat -> Tensor)
    (size : nat) (loss_fn : LossFn) (optimizer : SGD) (batch : nat)
    (Xy : list Image * list nat) (out : list (list Q)) (st : State) : State :=
  {| model := trained_model autograd loss_fn optimizer (model st) Xy;
     grad_enabled := grad_enabled st;
     stdout := stdout st ++
               (if batch mod 100 =? 0
                then [LProgress (loss_fn out (snd Xy)) (batch * length (fst Xy)) size]
                else []);
     calls := calls st ++ [CForward true; CLoss; CZeroGrad; CBackward; CStep];
     files := files st |}.

(** The progress line of the batch numbered [k] of the list [bs], in a run
    of the training loop that starts from the model [m]: the loss of that
    batch on the model as it is before the batch's update, the batch number
    times the number of examples of the batch, and the dataset size. *)
Definition progress_line
    (autograd : LossFn -> list Tensor -> Input -> list nat -> nat -> Tensor)
    (size : nat) (loss_fn : LossFn) (optimizer : SGD) (m : NeuralNetwork)
    (bs : list (list Image * list nat)) (k : nat) : Line :=
  let Xy := nth k bs ([], []) in
  LProgress (loss_fn (batch_logits (model_before autograd loss_fn optimizer m bs k) (fst Xy))
                     (snd Xy))
            (k * length (fst Xy)) size.

(** The lines printed by the training loop over the batches [bs], numbered
    from [k], starting from the model [m]. *)
Fixpoint progress_lines_from
    (autograd : LossFn -> list Tensor -> Input -> list nat -> nat -> Tensor)
    (size : nat) (loss_fn : LossFn) (optimizer : SGD) (k : nat) (m : NeuralNetwork)
    (bs : list (list Image * list nat)) : list Line :=
  match bs with
  | [] => []
  | Xy :: bs' =>
      (if k mod 100 =? 0
       then [LProgress (loss_fn (batch_logits m (fst Xy)) (snd Xy)) (k * length (fst Xy)) size]
       else [])
      ++ progress_lines_from autograd size loss_fn optimizer (S k)
           (trained_model autograd loss_fn optimizer m Xy) bs'
  end.

(** The batch numbers at which the training loop prints. *)
Definition printing_batches (n : nat) : list nat :=
  List.filter (fun k => k mod 100 =? 0) (seq 0 n).

(** *** Counting *)

Definition sumQ (l : list Q) : Q := fold_right Qplus 0%Q l.

(** The top-1 prediction of the model for one image. *)
Definition top1 (m : NeuralNetwork) (img : Image) : result nat :=
  Tensor.argmax (mlp m (concat (concat img))).

Definition top1_correct (m : NeuralNetwork) (s : Image * nat) : bool :=
  match top1 m (fst s) with
  | Ok k => k =? snd s
  | Raise _ => false
  end.

(** The number of samples the model classifies correctly. *)
Definition correct_count (m : NeuralNetwork) (l : list (Image * nat)) : nat :=
  length (List.filter (top1_correct m) l).

(** The number of examples in the batches before the one numbered [k], and
    up to and including it. *)
Definition examples_before (bs : list (list Image * list nat)) (k : nat) : nat :=
  length (concat (map fst (take k bs))).

Definition examples_through (bs : list (list Image * list nat)) (k : nat) : nat :=
  length (concat (map fst (take (S k) bs))).

Definition initial_state (rng : nat -> nat -> nat -> Q) : State :=
  {| model := NeuralNetwork_init rng; grad_enabled := true; stdout := [];
     calls := []; files := ∅ |}.

(** [k] is the index of the first maximal entry of [l]. *)
Definition is_argmax (l : list Q) (k : nat) : Prop :=
  exists vk, l !! k = Some vk
    /\ (forall j v, l !! j = Some v -> (v <= vk)%Q)
    /\ (forall j v, j < k -> l !! j = Some v -> (v < vk)%Q).

(** *** State bookkeeping *)

Definition add_calls (cs : list Call) (st : State) : State :=
  {| model := model st; grad_enabled := grad_enabled st; stdout := stdout st;
     calls := calls st ++ cs; files := files st |}.

(** A computation that leaves every parameter (value and gradient buffer)
    as it found it. *)
Definition preserves_parameters {A} (c : M A) : Prop :=
  forall st a st', c st = Ok (a, st') -> parameters (model st') = parameters (model st).

(** *** Small concrete inputs *)

Module Tiny.

Definition lin (w b : Q) : Linear :=
  {| weight := {| data := Tensor.T2 [[w]]; grad := None |};
     bias := {| data := Tensor.T1 [b]; grad := None |} |}.

(** A network of widths 1, 1, 1, 1. *)
Definition net : NeuralNetwork :=
  {| fc0 := lin 1 0; fc2 := lin 2 0; fc4 := lin 1 1; training := true |}.

(** An engine whose gradients are all ones, and a loss that sums the
    outputs. *)
Definition autograd (loss_fn : LossFn) (theta : list Tensor) (x : Input)
    (y : list nat) (i : nat) : Tensor :=
  Tensor.map (fun _ => 1%Q) (nth i theta (Tensor.T1 [])).

Definition loss_fn : LossFn := fun pred _ => sumQ (map sumQ pred).

Definition pixel (v : Q) : Image := [[[v]]].

Definition source (train : bool) : list (Image * nat) :=
  if train then [(pixel 1, 0); (pixel 2, 0); (pixel (-3), 1)]
  else [(pixel 5, 0)].

Definition st0 : State :=
  {| model := net; grad_enabled := true; stdout := []; calls := []; files := ∅ |}.

Definition dataloader : DataLoader :=
  {| dataset := training_data source; dl_batch_size := 2 |}.

(** 201 one-pixel samples in batches of two: the batch numbered 100 is the
    last one and holds a single sample. *)
Definition long_dataloader : DataLoader :=
  {| dataset := {| ds_train := true; samples := repeat (pixel 1, 0) 201 |};
     dl_batch_size := 2 |}.

Definition unit_step : SGD := {| lr := 1 |}.

(** A network of the notebook's widths and a 1 x 28 x 28 image. *)
Definition zero_net : NeuralNetwork := NeuralNetwork_init (fun _ _ _ => 0%Q).

Definition zero_image : Image := [repeat (repeat 0%Q 28) 28].

(** The state [st0] with stale gradient buffers, an earlier line on the
    output and the model in evaluation mode. *)
Definition stale (p : NNParameter) : NNParameter :=
  {| data := data p; grad := Some (Tensor.map (fun _ => 7%Q) (data p)) |}.

Definition st0_stale : State :=
  {| model := {| fc0 := Linear_map (fun _ => stale) 0 (fc0 net);
                 fc2 := Linear_map (fun _ => stale) 2 (fc2 net);
                 fc4 := Linear_map (fun _ => stale) 4 (fc4 net);
                 training := false |};
     grad_enabled := true; stdout := [LDone]; calls := [CStep]; files := ∅ |}.

(** An archive whose held-out split starts with that image, labelled 9,
    and the state after [model = NeuralNetwork()]. *)
Definition zero_source (train : bool) : list (Image * nat) :=
  if train then [] else [(zero_image, 9)].

Definition zero_st : State := initial_state (fun _ _ _ => 0%Q).

End Tiny.

(** *** Notions for the rest of the notebook *)

(** The model after [model.eval()]. *)
Definition eval_mode (m : NeuralNetwork) : NeuralNetwork :=
  {| fc0 := fc0 m; fc2 := fc2 m; fc4 := fc4 m; training := false |}.

(** What surrounds the parameters in the state: the gradient mode, the
    files and the mode of the model. *)
Definition ambient (st : State) : bool * gmap string StateDict * bool :=
  (grad_enabled st, files st, training (model st)).

Definition keeps_ambient {A} (c : M A) : Prop :=
  forall st a st', c st = Ok (a, st') -> ambient st' = ambient st.

Definition is_epoch_line (l : Line) : bool :=
  match l with LEpoch _ => true | _ => false end.

Definition is_test_line (l : Line) : bool :=
  match l with LTest _ _ => true | _ => false end.

(** The model after one pass of the training loop over the batches. *)
Definition train_pass
    (autograd : LossFn -> list Tensor -> Input -> list nat -> nat -> Tensor)
    (loss_fn : LossFn) (optimizer : SGD) (bs : list (list Image * list nat))
    (m : NeuralNetwork) : NeuralNetwork :=
  fold_left (trained_model autograd loss_fn optimizer) bs m.




(** The numbers in the brackets of a progress line. *)
Definition progress_counts (l : Line) : option (nat * nat) :=
  match l with
  | LProgress _ current size => Some (current, size)
  | _ => None
  end.

Module Small.

(** A sample of two pixels, which the one-input network [Tiny.net] rejects. *)
Definition wide : Image := [[[1%Q; 2%Q]]].

(** An archive without training data, and one whose held-out split is
    empty. *)
Definition no_training (train : bool) : list (Image * nat) :=
  if train then [] else [(Tiny.pixel 5, 0)].

Definition no_test (train : bool) : list (Image * nat) :=
  if train then [(Tiny.pixel 1, 0)] else [].

(** A state that holds the checkpoint of [Tiny.net], of other widths than
    the notebook's network. *)
Definition st_tiny_checkpoint : State :=
  {| model := Tiny.net; grad_enabled := true; stdout := []; calls := [];
     files := {[ "data/model.pth"%string := state_dict Tiny.net ]} |}.



(** A network of widths 1, 1, 1, 3 whose first two outputs are always
    equal, and a state that holds it. *)
Definition tie_net : NeuralNetwork :=
  {| fc0 := Tiny.lin 1 0; fc2 := Tiny.lin 2 0;
     fc4 := {| weight := {| data := Tensor.T2 [[1%Q]; [1%Q]; [0%Q]]; grad := None |};
               bias := {| data := Tensor.T1 [0%Q; 0%Q; 3%Q]; grad := None |} |};
     training := true |}.

Definition tie_st : State :=
  {| model := tie_net; grad_enabled := true; stdout := []; calls := []; files := ∅ |}.

(** An archive with 60000 one-pixel training samples. *)
Definition big_source (train : bool) : list (Image * nat) :=
  if train then repeat (Tiny.pixel 1, 0) (600 * 100) else [].

End Small.

(** * Properties *)

(** ** Arithmetic and tensors *)

Lemma Qplus_0_l_eq (q : Q) : (0 + q)%Q = q.
Proof.
  destruct q as [a b]. unfold Qplus. simpl.
  by rewrite Z.mul_1_r.
Qed.

Lemma relu_nonneg (x : Q) : (0 <= Tensor.relu x)%Q.
Proof.
  unfold Tensor.relu. destruct (Qle_bool 0 x) eqn:E.
  - by apply Qle_bool_iff.
  - apply Qle_refl.
Qed.

Lemma map_relu_nonneg (x : list Q) : Forall (fun v => (0 <= v)%Q) (map Tensor.relu x).
Proof. apply Forall_map, Forall_true. intros v. apply relu_nonneg. Qed.

Lemma shape_map (f : Q -> Q) (a : Tensor) : Tensor.shape (Tensor.map f a) = Tensor.shape a.
Proof.
  destruct a as [v|m]; simpl.
  - by rewrite length_map.
  - f_equal. rewrite map_map. apply map_ext. intros r. by rewrite length_map.
Qed.

Lemma vzip_ok (f : Q -> Q -> Q) (a b : list Q) :
  length a = length b -> Tensor.vzip f a b = Ok (zip_with f a b).
Proof. intros E. unfold Tensor.vzip. by rewrite E, Nat.eqb_refl. Qed.

Lemma mzip_ok (f : Q -> Q -> Q) (a b : list (list Q)) :
  map (@length Q) a = map (@length Q) b ->
  Tensor.mzip f a b = Ok (zip_with (zip_with f) a b).
Proof.
  revert b. induction a as [|ra a IH]; intros [|rb b] E; simplify_eq/=; [done|].
  rewrite vzip_ok by done. simpl. by rewrite IH.
Qed.

Lemma zip_ok (f : Q -> Q -> Q) (a b : Tensor) :
  Tensor.shape a = Tensor.shape b -> Tensor.zip f a b = Ok (zip_total f a b).
Proof.
  destruct a as [x|x], b as [y|y]; intros E; simplify_eq/=.
  - by rewrite vzip_ok.
  - by rewrite mzip_ok.
Qed.

Lemma rows_zip_with (f : Q -> Q -> Q) (x y : list (list Q)) :
  map (@length Q) x = map (@length Q) y ->
  map (@length Q) (zip_with (zip_with f) x y) = map (@length Q) x.
Proof.
  revert y. induction x as [|rx x IH]; intros [|ry y] E; simplify_eq/=; [done|].
  rewrite length_zip_with. f_equal; [lia|]. by apply IH.
Qed.

Lemma shape_zip_total (f : Q -> Q -> Q) (a b : Tensor) :
  Tensor.shape a = Tensor.shape b -> Tensor.shape (zip_total f a b) = Tensor.shape a.
Proof.
  destruct a as [x|x], b as [y|y]; intros E; simplify_eq/=.
  - rewrite length_zip_with. f_equal. lia.
  - f_equal. by apply rows_zip_with.
Qed.

Lemma zip_with_zeros (x y : list Q) :
  length x = length y -> zip_with Qplus (map (fun _ => 0%Q) x) y = y.
Proof.
  revert y. induction x as [|a x IH]; intros [|b y] E; simplify_eq/=; [done|].
  by rewrite Qplus_0_l_eq, IH.
Qed.

Lemma zip_total_zeros (old g : Tensor) :
  Tensor.shape old = Tensor.shape g ->
  zip_total Qplus (Tensor.map (fun _ => 0%Q) old) g = g.
Proof.
  destruct old as [x|x], g as [y|y]; intros E; simplify_eq/=.
  - by rewrite zip_with_zeros.
  - f_equal. revert y E. induction x as [|rx x IH]; intros [|ry y] E; simplify_eq/=; [done|].
    rewrite zip_with_zeros by done. by rewrite IH.
Qed.

(** ** The forward pass *)

Lemma rbind_ok {A B} (r : result A) (k : A -> result B) (b : B) :
  rbind r k = Ok b -> exists a, r = Ok a /\ k a = Ok b.
Proof. destruct r as [a|e]; simpl; [eauto | done]. Qed.

Lemma mapR_ok {A B} (f : A -> result B) (g : A -> B) (l : list A) :
  Forall (fun a => f a = Ok (g a)) l -> mapR f l = Ok (map g l).
Proof.
  induction 1 as [|a l Ha _ IH]; simpl; [done|].
  by rewrite Ha, IH.
Qed.

Lemma mapR_Forall {A B} (f : A -> result B) (P : B -> Prop) (l : list A) (out : list B) :
  (forall a b, f a = Ok b -> P b) -> mapR f l = Ok out -> Forall P out.
Proof.
  intros Hf. revert out. induction l as [|a l IH]; intros out E; simpl in E.
  - by simplify_eq.
  - apply rbind_ok in E as (b & Eb & E). apply rbind_ok in E as (bs & Ebs & E).
    simplify_eq. constructor; eauto.
Qed.

Lemma mapR_length {A B} (f : A -> result B) (l : list A) (out : list B) :
  mapR f l = Ok out -> length out = length l.
Proof.
  revert out. induction l as [|a l IH]; intros out E; simpl in E.
  - by simplify_eq.
  - apply rbind_ok in E as (b & Eb & E). apply rbind_ok in E as (bs & Ebs & E).
    simplify_eq. simpl. f_equal. by apply IH.
Qed.

Lemma forallb_length_eq (i : nat) (rows : list (list Q)) (x : list Q) :
  forallb (fun r => length r =? i) rows = true -> length x = i ->
  forallb (fun r => length r =? length x) rows = true.
Proof. intros H <-. done. Qed.

Lemma linear_ok (l : Linear) (i o : nat) (x : list Q) :
  Linear_dims l i o = true -> length x = i ->
  Tensor.linear x (data (weight l)) (data (bias l)) = Ok (affine l x)
  /\ length (affine l x) = o.
Proof.
  unfold Linear_dims, affine, Tensor.linear. intros D Hx.
  destruct (data (weight l)) as [|rows]; [done|].
  destruct (data (bias l)) as [bs|]; [|done].
  apply andb_prop in D as [D Hrows]. apply andb_prop in D as [Hr Hb].
  apply Nat.eqb_eq in Hr, Hb.
  rewrite (forallb_length_eq i) by done. rewrite Hr, Hb, Nat.eqb_refl. simpl.
  split; [done|]. rewrite length_zip_with. lia.
Qed.

Lemma Sequential_ok (m : NeuralNetwork) (d0 d1 d2 d3 : nat) (x : list Q) :
  net_dims m d0 d1 d2 d3 = true -> length x = d0 ->
  Sequential_forward (linear_relu_stack m) x = Ok (mlp m x)
  /\ length (hidden1 m x) = d1 /\ length (hidden2 m x) = d2 /\ length (mlp m x) = d3.
Proof.
  unfold net_dims. intros D Hx.
  apply andb_prop in D as [D D4]. apply andb_prop in D as [D0 D2].
  destruct (linear_ok _ _ _ x D0 Hx) as [E0 L0].
  assert (L1 : length (hidden1 m x) = d1) by (unfold hidden1; by rewrite length_map).
  destruct (linear_ok _ _ _ (hidden1 m x) D2 L1) as [E2 L2].
  assert (L3 : length (hidden2 m x) = d2) by (unfold hidden2; by rewrite length_map).
  destruct (linear_ok _ _ _ (hidden2 m x) D4 L3) as [E4 L4].
  repeat split; [|done|done|unfold mlp; by rewrite length_map].
  unfold linear_relu_stack. simpl. rewrite E0. simpl. fold (hidden1 m x).
  rewrite E2. simpl. fold (hidden2 m x). rewrite E4. done.
Qed.

Lemma Sequential_nonneg (m : NeuralNetwork) (x y : list Q) :
  Sequential_forward (linear_relu_stack m) x = Ok y -> Forall (fun v => (0 <= v)%Q) y.
Proof.
  unfold linear_relu_stack. simpl. intros E.
  repeat (apply rbind_ok in E as (? & _ & E); simpl in E).
  simplify_eq. apply map_relu_nonneg.
Qed.

Lemma concat_rows_length (W : nat) (ch : list (list Q)) :
  forallb (fun r => length r =? W) ch = true -> length (concat ch) = length ch * W.
Proof.
  induction ch as [|r ch IH]; simpl; [done|]. intros Hr.
  apply andb_prop in Hr as [Hr Hch]. apply Nat.eqb_eq in Hr.
  rewrite length_app, IH by done. lia.
Qed.

Lemma concat_channels_length (H W : nat) (img : Image) :
  forallb (fun ch => (length ch =? H) && forallb (fun r => length r =? W) ch) img = true ->
  length (concat (concat img)) = length img * H * W.
Proof.
  induction img as [|ch img IH]; simpl; [done|]. intros D.
  apply andb_prop in D as [Hch D]. apply andb_prop in Hch as [HH HW].
  apply Nat.eqb_eq in HH. rewrite concat_app, length_app, IH by done.
  rewrite concat_rows_length with (W := W) by done. lia.
Qed.

Lemma image_dims_length (C H W : nat) (img : Image) :
  image_dims C H W img = true -> length (concat (concat img)) = C * H * W.
Proof.
  unfold image_dims. intros D. apply andb_prop in D as [HC D].
  apply Nat.eqb_eq in HC. subst C. by apply concat_channels_length.
Qed.

Lemma forward_batch_ok (m : NeuralNetwork) (d0 d1 d2 d3 : nat) (X : list Image) :
  net_dims m d0 d1 d2 d3 = true ->
  Forall (fun img => length (concat (concat img)) = d0) X ->
  forward m (Batch4 X) = Ok (batch_logits m X).
Proof.
  intros D HX. unfold forward, batch_logits, flatten.
  induction HX as [|img X Hl _ IH]; cbn [map mapR]; [done|].
  destruct (Sequential_ok m d0 d1 d2 d3 _ D Hl) as [-> _]. cbn [rbind].
  by rewrite IH.
Qed.

Lemma nn_Linear_dims (rng : nat -> nat -> Q) (i o : nat) :
  Linear_dims (nn_Linear rng i o) i o = true.
Proof.
  unfold Linear_dims, nn_Linear. simpl.
  rewrite !length_map, !length_seq, Nat.eqb_refl. simpl.
  apply forallb_forall. intros r Hr. apply in_map_iff in Hr as (k & <- & _).
  rewrite length_map, length_seq. apply Nat.eqb_refl.
Qed.

(** The constructor builds a network of widths 784, 512, 512, 10. *)
Lemma NeuralNetwork_init_dims (rng : nat -> nat -> nat -> Q) :
  net_dims (NeuralNetwork_init rng) (28 * 28) 512 512 10 = true.
Proof.
  unfold net_dims, NeuralNetwork_init.
  cbn [fc0 fc2 fc4]. by rewrite !nn_Linear_dims.
Qed.

(** The notebook's starting state meets the conditions under which the
    loops below are shown to complete. *)
Lemma initial_state_ready (rng : nat -> nat -> nat -> Q) :
  grad_enabled (initial_state rng) = true
  /\ grads_ok (model (initial_state rng)) = true
  /\ net_dims (model (initial_state rng)) (28 * 28) 512 512 10 = true.
Proof. split; [done|]. split; [done|]. apply NeuralNetwork_init_dims. Qed.

(** C6: the model flattens each image of the batch into a row of 784
    numbers and maps it through two hidden layers of 512 units, each
    followed by the ReLU nonlinearity, to a row of 10 logits; the rows it
    returns are these values, with no normalisation applied. *)
Theorem forward_is_two_hidden_layer_network (m : NeuralNetwork) (X : list Image) :
  net_dims m (28 * 28) 512 512 10 = true ->
  Forall (fun img => image_dims 1 28 28 img = true) X ->
  forward m (Batch4 X)
  = Ok (map (fun img =>
               map Tensor.relu (affine (fc4 m)
                 (map Tensor.relu (affine (fc2 m)
                   (map Tensor.relu (affine (fc0 m) (concat (concat img)))))))) X)
  /\ Forall (fun img =>
       let x := concat (concat img) in
       length x = 784 /\ length (hidden1 m x) = 512
       /\ length (hidden2 m x) = 512 /\ length (mlp m x) = 10) X.
Proof.
  intros D HX.
  assert (HL : Forall (fun img => length (concat (concat img)) = 28 * 28) X).
  { eapply Forall_impl; [exact HX|]. intros img Hd.
    rewrite (image_dims_length 1 28 28) by done. lia. }
  split.
  - by rewrite (forward_batch_ok m _ _ _ _ X D HL).
  - eapply Forall_impl; [exact HL|]. intros img Hl. simpl.
    destruct (Sequential_ok m _ _ _ _ _ D Hl) as (_ & ? & ? & ?). done.
Qed.

Lemma forward_is_two_hidden_layer_network_witness :
  net_dims Tiny.zero_net (28 * 28) 512 512 10 = true
  /\ Forall (fun img => image_dims 1 28 28 img = true) [Tiny.zero_image]
  /\ forward Tiny.zero_net (Batch4 [Tiny.zero_image])
     = Ok (batch_logits Tiny.zero_net [Tiny.zero_image]).
Proof.
  assert (D : net_dims Tiny.zero_net (28 * 28) 512 512 10 = true) by (vm_compute; reflexivity).
  assert (I : Forall (fun img => image_dims 1 28 28 img = true) [Tiny.zero_image]).
  { constructor; [vm_compute; reflexivity | constructor]. }
  split; [exact D|]. split; [exact I|].
  exact (proj1 (forward_is_two_hidden_layer_network Tiny.zero_net [Tiny.zero_image] D I)).
Defined.

(** C10: the last layer of the stack is a ReLU, so every entry of every
    output row of the model is non-negative, whatever the parameter values
    and the input. *)
Theorem forward_outputs_nonnegative (m : NeuralNetwork) (x : Input) (out : list (list Q)) :
  forward m x = Ok out -> Forall (Forall (fun v => (0 <= v)%Q)) out.
Proof.
  unfold forward. apply mapR_Forall. intros row y. apply Sequential_nonneg.
Qed.

Lemma forward_outputs_nonnegative_witness :
  forward Tiny.net (Batch4 [Tiny.pixel 1; Tiny.pixel (-3)]) = Ok [[3]; [1]]%Q
  /\ Forall (Forall (fun v => (0 <= v)%Q)) [[3]; [1]]%Q.
Proof.
  assert (E : forward Tiny.net (Batch4 [Tiny.pixel 1; Tiny.pixel (-3)]) = Ok [[3]; [1]]%Q)
    by (vm_compute; reflexivity).
  split; [exact E|].
  exact (forward_outputs_nonnegative _ _ _ E).
Defined.

(** ** The data stage *)

(** C1: the loader handed to the evaluation loop, [test_dataloader], is
    built over [training_data]: its dataset is the training split, its
    batches are those of [train_dataloader], none of its pairs is drawn
    from [test_data], and every epoch evaluates on it. *)
Theorem test_dataloader_iterates_training_data
    (autograd : LossFn -> list Tensor -> Input -> list nat -> nat -> Tensor)
    (loss_fn : LossFn) (source : bool -> list (Image * nat)) :
  dataset (test_dataloader source) = training_data source
  /\ ds_train (dataset (test_dataloader source)) = true
  /\ samples (dataset (test_dataloader source)) = source true
  /\ batches (test_dataloader source) = batches (train_dataloader source)
  /\ forall t,
       epoch autograd loss_fn source t
       = (print (LEpoch (t + 1));;
          train autograd (train_dataloader source) loss_fn optimizer;;
          test loss_fn {| dataset := FashionMNIST source true; dl_batch_size := 64 |}).
Proof. repeat split. Qed.

(** On a concrete archive the evaluation batches are the training pairs,
    and differ from the batches of the held-out split. *)
Example test_dataloader_on_tiny_source :
  batches (test_dataloader Tiny.source)
  = [([Tiny.pixel 1; Tiny.pixel 2; Tiny.pixel (-3)], [0; 0; 1])]
  /\ batches {| dataset := test_data Tiny.source; dl_batch_size := batch_size |}
     = [([Tiny.pixel 5], [0])].
Proof. split; reflexivity. Qed.

(** ** Reasoning about notebook code *)

Lemma bind_unfold {A B} (c : M A) (k : A -> M B) (st : State) :
  (c ≫= k) st = match c st with
                | Ok (a, st') => k a st'
                | Raise e => Raise e
                end.
Proof. reflexivity. Qed.

Lemma bind_Ok {A B} (c : M A) (k : A -> M B) (st st' : State) (a : A) :
  c st = Ok (a, st') -> (c ≫= k) st = k a st'.
Proof. intros E. by rewrite bind_unfold, E. Qed.

Lemma bind_inv {A B} (c : M A) (k : A -> M B) (st st2 : State) (b : B) :
  (c ≫= k) st = Ok (b, st2) ->
  exists a st1, c st = Ok (a, st1) /\ k a st1 = Ok (b, st2).
Proof.
  rewrite bind_unfold. destruct (c st) as [[a st1]|e]; [eauto | done].
Qed.

Lemma lift_inv {A} (r : result A) (st st' : State) (a : A) :
  lift r st = Ok (a, st') -> r = Ok a /\ st' = st.
Proof. unfold lift. destruct r; intros E; by simplify_eq. Qed.

Lemma add_calls_add_calls (c1 c2 : list Call) (st : State) :
  add_calls c2 (add_calls c1 st) = add_calls (c1 ++ c2) st.
Proof. unfold add_calls. simpl. by rewrite app_assoc. Qed.

Lemma add_call_add_calls (c : Call) (st : State) : add_call c st = add_calls [c] st.
Proof. reflexivity. Qed.

(** *** Computations that do not touch the parameters *)

Lemma preserves_ret {A} (a : A) : preserves_parameters (mret a : M A).
Proof. intros st a' st' E. by injection E as <- <-. Qed.

Lemma preserves_bind {A B} (c : M A) (k : A -> M B) :
  preserves_parameters c -> (forall a, preserves_parameters (k a)) ->
  preserves_parameters (c ≫= k).
Proof.
  intros Hc Hk st b st2 E. apply bind_inv in E as (a & st1 & E1 & E2).
  rewrite (Hk _ _ _ _ E2). by apply (Hc _ _ _ E1).
Qed.

Lemma preserves_lift {A} (r : result A) : preserves_parameters (lift r).
Proof. intros st a st' E. apply lift_inv in E as [_ ->]. done. Qed.

Lemma preserves_print (l : Line) : preserves_parameters (print l).
Proof. intros st a st' E. by injection E as <- <-. Qed.

Lemma preserves_model_eval : preserves_parameters model_eval.
Proof. intros st a st' E. by injection E as <- <-. Qed.

Lemma preserves_call_model (x : Input) : preserves_parameters (call_model x).
Proof.
  intros st a st' E. unfold call_model in E.
  destruct (forward (model st) x); by simplify_eq.
Qed.

Lemma preserves_call_loss_fn (loss_fn : LossFn) (pred : Output) (y : list nat) :
  preserves_parameters (call_loss_fn loss_fn pred y).
Proof. intros st a st' E. by injection E as <- <-. Qed.

Lemma preserves_no_grad {A} (body : M A) :
  preserves_parameters body -> preserves_parameters (no_grad body).
Proof.
  intros Hb st a st' E. unfold no_grad in E.
  destruct (body (set_grad_enabled false st)) as [[a1 st1]|e] eqn:Eb; [|done].
  simplify_eq. by apply Hb in Eb.
Qed.

Lemma preserves_fold_each {A B} (l : list A) (body : B -> A -> M B) (acc : B) :
  (forall b a, preserves_parameters (body b a)) ->
  preserves_parameters (fold_each l body acc).
Proof.
  intros Hb. revert acc. induction l as [|a l IH]; intros acc; simpl.
  - apply preserves_ret.
  - apply preserves_bind; [apply Hb | intros b; apply IH].
Qed.

Lemma preserves_test_batch (loss_fn : LossFn) (acc : Q * Q) (Xy : list Image * list nat) :
  preserves_parameters (test_batch loss_fn acc Xy).
Proof.
  destruct acc as [l c], Xy as [X y]. unfold test_batch.
  apply preserves_bind; [apply preserves_call_model | intros pred].
  apply preserves_bind; [apply preserves_call_loss_fn | intros loss].
  apply preserves_bind; [apply preserves_lift | intros n].
  apply preserves_ret.
Qed.

(** ** The evaluation loop *)

(** C5: a completed evaluation pass leaves every parameter of the model as
    it was: the values under each name, and the gradient buffers too. *)
Theorem test_preserves_parameters (loss_fn : LossFn) (dataloader : DataLoader)
    (st st' : State) :
  test loss_fn dataloader st = Ok (tt, st') ->
  state_dict (model st') = state_dict (model st)
  /\ parameters (model st') = parameters (model st).
Proof.
  intros E.
  assert (P : preserves_parameters (test loss_fn dataloader)).
  { unfold test.
    apply preserves_bind; [apply preserves_model_eval | intros _].
    apply preserves_bind.
    { apply preserves_no_grad, preserves_fold_each. apply preserves_test_batch. }
    intros [l c].
    apply preserves_bind; [apply preserves_lift | intros l'].
    apply preserves_bind; [apply preserves_lift | intros c'].
    apply preserves_print. }
  apply P in E. split; [|done]. unfold state_dict. by rewrite E.
Qed.

Lemma test_preserves_parameters_witness :
  exists st',
    test Tiny.loss_fn Tiny.dataloader Tiny.st0 = Ok (tt, st')
    /\ state_dict (model st') = state_dict (model Tiny.st0)
    /\ parameters (model st') = parameters (model Tiny.st0).
Proof.
  assert (E : exists st', test Tiny.loss_fn Tiny.dataloader Tiny.st0 = Ok (tt, st')).
  { eexists. vm_compute. reflexivity. }
  destruct E as [st' E]. exists st'. split; [exact E|].
  exact (test_preserves_parameters Tiny.loss_fn Tiny.dataloader Tiny.st0 st' E).
Defined.

(** *** Batching *)

Lemma batch_sampler_concat {A} (bs : nat) (cur l : list A) :
  concat (batch_sampler bs cur l) = cur ++ l.
Proof.
  revert cur. induction l as [|a l IH]; intros cur; simpl.
  - destruct cur; simpl; [done|]. by rewrite !app_nil_r.
  - destruct (length (cur ++ [a]) =? bs); simpl; rewrite IH;
      by rewrite <- app_assoc.
Qed.

Lemma batches_concat (dl : DataLoader) :
  concat (batch_sampler (dl_batch_size dl) [] (samples (dataset dl)))
  = samples (dataset dl).
Proof. apply batch_sampler_concat. Qed.

(** *** Counting correct predictions *)

Lemma argmax_rows (m : NeuralNetwork) (b : list (Image * nat)) :
  Forall (fun s => mlp m (concat (concat (fst s))) <> []) b ->
  exists am, mapR Tensor.argmax (batch_logits m (map fst b)) = Ok am
             /\ Forall2 (fun k s => top1 m (fst s) = Ok k) am b.
Proof.
  induction 1 as [|s b Hs _ (am & E & F)].
  - exists []. split; [done | constructor].
  - unfold batch_logits in *. cbn [map mapR].
    destruct (Tensor.argmax (mlp m (concat (concat (fst s))))) as [k|e] eqn:Ek.
    + exists (k :: am). cbn [rbind]. rewrite E. split; [done|]. by constructor.
    + unfold Tensor.argmax in Ek. by destruct (mlp m (concat (concat (fst s)))).
Qed.

Lemma inject_Z_succ (n : nat) :
  (inject_Z (Z.of_nat (S n)) == 1 + inject_Z (Z.of_nat n))%Q.
Proof.
  rewrite Nat2Z.inj_succ. unfold Z.succ. rewrite inject_Z_plus. ring.
Qed.

Lemma indicator_sum (m : NeuralNetwork) (am : list nat) (b : list (Image * nat)) :
  Forall2 (fun k s => top1 m (fst s) = Ok k) am b ->
  (fold_right Qplus 0 (zip_with (fun a l => if a =? l then 1 else 0) am (map snd b))
   == inject_Z (Z.of_nat (correct_count m b)))%Q.
Proof.
  unfold correct_count.
  induction 1 as [|k s am b Hk _ IH]; cbn [map zip_with fold_right List.filter].
  - reflexivity.
  - unfold top1_correct at 1. rewrite Hk. rewrite IH.
    destruct (k =? snd s); cbn [length].
    + by rewrite inject_Z_succ.
    + ring.
Qed.

Lemma count_correct_ok (m : NeuralNetwork) (b : list (Image * nat)) :
  Forall (fun s => mlp m (concat (concat (fst s))) <> []) b ->
  exists c, count_correct (batch_logits m (map fst b)) (map snd b) = Ok c
            /\ (c == inject_Z (Z.of_nat (correct_count m b)))%Q.
Proof.
  intros Hb. destruct (argmax_rows m b Hb) as (am & E & F).
  unfold count_correct. rewrite E. cbn [rbind].
  rewrite (Forall2_length _ _ _ F), length_map, Nat.eqb_refl.
  eexists. split; [reflexivity|]. by apply indicator_sum.
Qed.

Lemma correct_count_app (m : NeuralNetwork) (a b : list (Image * nat)) :
  correct_count m (a ++ b) = correct_count m a + correct_count m b.
Proof. unfold correct_count. by rewrite List.filter_app, length_app. Qed.

(** *** Library calls that succeed *)

Lemma call_model_batch (st : State) (d0 d1 d2 d3 : nat) (X : list Image) :
  net_dims (model st) d0 d1 d2 d3 = true ->
  Forall (fun img => length (concat (concat img)) = d0) X ->
  call_model (Batch4 X) st
  = Ok ({| logits := batch_logits (model st) X;
           grad_fn := if grad_enabled st then Some (Batch4 X) else None |},
        add_calls [CForward (grad_enabled st)] st).
Proof.
  intros D HX. unfold call_model.
  by rewrite (forward_batch_ok _ _ _ _ _ X D HX).
Qed.

Lemma mlp_nonempty (m : NeuralNetwork) (d0 d1 d2 d3 : nat) (x : list Q) :
  net_dims m d0 d1 d2 d3 = true -> 0 < d3 -> length x = d0 -> mlp m x <> [].
Proof.
  intros D H3 Hx E. destruct (Sequential_ok m _ _ _ _ x D Hx) as (_ & _ & _ & L).
  rewrite E in L. simpl in L. lia.
Qed.

Lemma test_batch_ok (loss_fn : LossFn) (st : State) (d0 d1 d2 d3 : nat)
    (l c : Q) (b : list (Image * nat)) :
  grad_enabled st = false ->
  net_dims (model st) d0 d1 d2 d3 = true -> 0 < d3 ->
  Forall (fun s => length (concat (concat (fst s))) = d0) b ->
  exists cb,
    test_batch loss_fn (l, c) (map fst b, map snd b) st
    = Ok (((l + loss_fn (batch_logits (model st) (map fst b)) (map snd b))%Q, (c + cb)%Q),
          add_calls [CForward false; CLoss] st)
    /\ (cb == inject_Z (Z.of_nat (correct_count (model st) b)))%Q.
Proof.
  intros G D H3 Hb.
  assert (HX : Forall (fun img => length (concat (concat img)) = d0) (map fst b)).
  { apply Forall_map. eapply Forall_impl; [exact Hb|]. done. }
  destruct (count_correct_ok (model st) b) as (cb & Ec & Hc).
  { eapply Forall_impl; [exact Hb|]. intros s Hs. by eapply mlp_nonempty. }
  exists cb. split; [|exact Hc].
  unfold test_batch.
  rewrite (bind_Ok _ _ _ _ _ (call_model_batch st _ _ _ _ _ D HX)).
  rewrite G. rewrite bind_unfold. unfold call_loss_fn. cbn [logits item].
  rewrite bind_unfold. unfold lift. rewrite Ec.
  unfold mret, M_ret. by rewrite add_call_add_calls, add_calls_add_calls.
Qed.

Lemma test_loop_ok (loss_fn : LossFn) (d0 d1 d2 d3 : nat)
    (rb : list (list (Image * nat))) (st : State) (l c : Q) :
  grad_enabled st = false ->
  net_dims (model st) d0 d1 d2 d3 = true -> 0 < d3 ->
  Forall (Forall (fun s => length (concat (concat (fst s))) = d0)) rb ->
  exists l' c',
    fold_each (map (fun b => (map fst b, map snd b)) rb) (test_batch loss_fn) (l, c) st
    = Ok ((l', c'), add_calls (concat (map (fun _ => [CForward false; CLoss]) rb)) st)
    /\ (l' == l + sumQ (map (fun b => loss_fn (batch_logits (model st) (map fst b))
                                              (map snd b)) rb))%Q
    /\ (c' == c + inject_Z (Z.of_nat (correct_count (model st) (concat rb))))%Q.
Proof.
  intros G D H3 Hrb. revert st l c G D.
  induction Hrb as [|b rb Hb _ IH]; intros st l c G D.
  - exists l, c. cbn [map fold_each concat sumQ fold_right].
    split; [|split; unfold correct_count; simpl; ring].
    unfold add_calls. rewrite app_nil_r. by destruct st.
  - destruct (test_batch_ok loss_fn st _ _ _ _ l c b G D H3 Hb) as (cb & Eb & Hcb).
    destruct (IH (add_calls [CForward false; CLoss] st)
                 (l + loss_fn (batch_logits (model st) (map fst b)) (map snd b))%Q
                 (c + cb)%Q G D) as (l' & c' & E & Hl & Hc).
    exists l', c'. cbn [map fold_each].
    rewrite (bind_Ok _ _ _ _ _ Eb), E, add_calls_add_calls.
    split; [done|]. cbn [model add_calls] in Hl, Hc. split.
    + rewrite Hl. cbn [sumQ fold_right]. unfold sumQ. ring.
    + rewrite Hc, Hcb. cbn [concat]. rewrite correct_count_app, Nat2Z.inj_add, inject_Z_plus.
      ring.
Qed.

Lemma truediv_ok (x : Q) (n : nat) :
  0 < n -> truediv x n = Ok (x / inject_Z (Z.of_nat n))%Q.
Proof. intros Hn. unfold truediv. by destruct n; [lia|]. Qed.

(** What the evaluation loop prints, for any loss function: on a non-empty
    dataset it runs the model on every batch with tracking disabled, adds
    up the value of the loss function on each batch and the number of
    correct top-1 predictions, and prints the accumulated value divided by
    the number of examples and (as a percentage) the number of correctly
    classified examples divided by the number of examples. *)
Theorem test_reports_mean_loss_and_accuracy (loss_fn : LossFn) (dataloader : DataLoader)
    (st : State) (d0 d1 d2 d3 : nat) :
  0 < length (samples (dataset dataloader)) ->
  net_dims (model st) d0 d1 d2 d3 = true -> 0 < d3 ->
  Forall (fun s => length (concat (concat (fst s))) = d0) (samples (dataset dataloader)) ->
  exists st' accuracy avg_loss,
    test loss_fn dataloader st = Ok (tt, st')
    /\ stdout st' = stdout st ++ [LTest (100 * accuracy) avg_loss]
    /\ calls st'
       = calls st ++ concat (map (fun _ => [CForward false; CLoss]) (batches dataloader))
    /\ (avg_loss
        == sumQ (map (fun Xy => loss_fn (batch_logits (model st) (fst Xy)) (snd Xy))
                     (batches dataloader))
           / inject_Z (Z.of_nat (length (samples (dataset dataloader)))))%Q
    /\ (accuracy
        == inject_Z (Z.of_nat (correct_count (model st) (samples (dataset dataloader))))
           / inject_Z (Z.of_nat (length (samples (dataset dataloader)))))%Q.
Proof.
  intros Hsize D H3 Hs.
  set (rb := batch_sampler (dl_batch_size dataloader) [] (samples (dataset dataloader))).
  set (m1 := {| fc0 := fc0 (model st); fc2 := fc2 (model st); fc4 := fc4 (model st);
                training := false |}).
  set (st1 := set_grad_enabled false (set_model m1 st)).
  assert (Hrb : Forall (Forall (fun s => length (concat (concat (fst s))) = d0)) rb).
  { apply Forall_concat. unfold rb. by rewrite batches_concat. }
  destruct (test_loop_ok loss_fn d0 d1 d2 d3 rb st1 0%Q 0%Q eq_refl D H3 Hrb)
    as (l' & c' & E & Hl & Hc).
  exists (add_line (LTest (100 * (c' / inject_Z (Z.of_nat (length (samples (dataset dataloader))))))
                          (l' / inject_Z (Z.of_nat (length (samples (dataset dataloader))))))
                   (set_grad_enabled (grad_enabled st)
                      (add_calls (concat (map (fun _ => [CForward false; CLoss]) rb)) st1))),
         (c' / inject_Z (Z.of_nat (length (samples (dataset dataloader)))))%Q,
         (l' / inject_Z (Z.of_nat (length (samples (dataset dataloader)))))%Q.
  split; [|split; [|split; [|split]]].
  - unfold test. rewrite bind_unfold. unfold model_eval. fold m1.
    rewrite bind_unfold. unfold no_grad. unfold batches. fold rb. fold st1.
    rewrite E. cbn [grad_enabled set_model].
    rewrite bind_unfold. unfold lift at 1. rewrite truediv_ok by done.
    rewrite bind_unfold. unfold lift at 1. rewrite truediv_ok by done.
    reflexivity.
  - reflexivity.
  - cbn [calls add_line set_grad_enabled add_calls st1 set_model].
    unfold batches. fold rb. by rewrite map_map.
  - rewrite Hl. unfold batches. fold rb. rewrite map_map. cbn [fst snd].
    apply Qdiv_comp; [|reflexivity]. unfold sumQ. cbn [model st1 set_grad_enabled set_model].
    ring_simplify. reflexivity.
  - rewrite Hc. unfold rb. rewrite batches_concat.
    apply Qdiv_comp; [|reflexivity]. ring_simplify. reflexivity.
Qed.

Lemma test_reports_mean_loss_and_accuracy_witness :
  0 < length (samples (dataset Tiny.dataloader))
  /\ net_dims (model Tiny.st0) 1 1 1 1 = true
  /\ exists st' accuracy avg_loss,
       test Tiny.loss_fn Tiny.dataloader Tiny.st0 = Ok (tt, st')
       /\ stdout st' = stdout Tiny.st0 ++ [LTest (100 * accuracy) avg_loss]
       /\ calls st'
          = calls Tiny.st0
            ++ concat (map (fun _ => [CForward false; CLoss]) (batches Tiny.dataloader))
       /\ (avg_loss
           == sumQ (map (fun Xy => Tiny.loss_fn (batch_logits (model Tiny.st0) (fst Xy)) (snd Xy))
                        (batches Tiny.dataloader))
              / inject_Z (Z.of_nat (length (samples (dataset Tiny.dataloader)))))%Q
       /\ (accuracy
           == inject_Z (Z.of_nat (correct_count (model Tiny.st0)
                                    (samples (dataset Tiny.dataloader))))
              / inject_Z (Z.of_nat (length (samples (dataset Tiny.dataloader)))))%Q.
Proof.
  split; [simpl; lia|]. split; [reflexivity|].
  apply (test_reports_mean_loss_and_accuracy Tiny.loss_fn Tiny.dataloader Tiny.st0 1 1 1 1).
  - simpl; lia.
  - reflexivity.
  - lia.
  - repeat constructor.
Defined.


(** ** Checkpoints *)

(** C3: saving a named parameter mapping to a path and loading that path
    returns a mapping with the same names, in the same order, and under
    every name the very tensor that was saved. *)
Theorem checkpoint_round_trip (params : StateDict) (path : string) (st : State) :
  exists loaded st',
    (torch_save params path;; torch_load path) st = Ok (loaded, st')
    /\ map fst loaded = map fst params
    /\ (forall name, assoc name loaded = assoc name params)
    /\ loaded = params.
Proof.
  exists params, (set_files (<[path := params]> (files st)) st).
  split; [|done].
  rewrite bind_unfold. unfold torch_save, torch_load. cbn [files set_files].
  by rewrite lookup_insert_eq.
Qed.

(** ** Class selection *)

Lemma argmax_from_spec (l p : list Q) (best_i : nat) (best : Q) :
  p !! best_i = Some best ->
  (forall j v, p !! j = Some v -> (v <= best)%Q) ->
  (forall j v, j < best_i -> p !! j = Some v -> (v < best)%Q) ->
  is_argmax (p ++ l) (Tensor.argmax_from best_i best (length p) l).
Proof.
  revert p best_i best. induction l as [|x l IH]; intros p bi best Hb Hmax Hfirst.
  - simpl. rewrite app_nil_r. by exists best.
  - cbn [Tensor.argmax_from]. replace (p ++ x :: l) with ((p ++ [x]) ++ l)
      by (by rewrite <- app_assoc).
    replace (S (length p)) with (length (p ++ [x])) by (rewrite length_app; simpl; lia).
    destruct (Qle_bool x best) eqn:E.
    + apply Qle_bool_iff in E. apply IH.
      * by apply lookup_app_l_Some.
      * intros j v Hj. apply lookup_app_Some in Hj as [Hj|[_ Hj]]; [by eapply Hmax|].
        apply list_lookup_singleton_Some in Hj as [_ <-]. done.
      * intros j v Hlt Hj. apply lookup_app_Some in Hj as [Hj|[Hge Hj]]; [by eapply Hfirst|].
        apply lookup_lt_Some in Hb. lia.
    + assert (Hlt : (best < x)%Q).
      { apply Qnot_le_lt. intros Hle. apply Qle_bool_iff in Hle. congruence. }
      apply IH.
      * rewrite lookup_app_r by done. by rewrite Nat.sub_diag.
      * intros j v Hj. apply lookup_app_Some in Hj as [Hj|[_ Hj]].
        -- apply Qlt_le_weak. eapply Qle_lt_trans; [by eapply Hmax | done].
        -- apply list_lookup_singleton_Some in Hj as [_ <-]. apply Qle_refl.
      * intros j v Hj Hv. apply lookup_app_Some in Hv as [Hv|[Hge _]]; [|lia].
        eapply Qle_lt_trans; [by eapply Hmax | done].
Qed.

Lemma argmax_spec (l : list Q) :
  l <> [] -> exists k, Tensor.argmax l = Ok k /\ is_argmax l k /\ k < length l.
Proof.
  destruct l as [|x l]; [done|]. intros _. eexists. split; [reflexivity|].
  assert (A : is_argmax ([x] ++ l) (Tensor.argmax_from 0 x (length [x]) l)).
  { apply argmax_from_spec.
    - done.
    - intros [|j] v Hj; simplify_eq/=. apply Qle_refl.
    - intros j v Hj. lia. }
  split; [exact A|].
  destruct A as (vk & Hk & _). by apply lookup_lt_Some in Hk.
Qed.

(** ** Inference *)

Lemma forward_single_ok (m : NeuralNetwork) (d0 d1 d2 d3 H W : nat) (x : Image) :
  net_dims m d0 d1 d2 d3 = true -> image_dims 1 H W x = true -> H * W = d0 ->
  exists ch, x = [ch]
             /\ forward m (Single3 x) = Ok [mlp m (concat ch)]
             /\ length (mlp m (concat ch)) = d3.
Proof.
  intros D I HW. unfold image_dims in I. apply andb_prop in I as [I1 I2].
  apply Nat.eqb_eq in I1. destruct x as [|ch [|? ?]]; simplify_eq/=.
  rewrite andb_true_r in I2. apply andb_prop in I2 as [IH IW].
  apply Nat.eqb_eq in IH.
  assert (L : length (concat ch) = length ch * W) by (by apply concat_rows_length).
  rewrite IH in L.
  destruct (Sequential_ok m _ _ _ _ (concat ch) D L) as (E & _ & _ & L3).
  exists ch. split; [done|]. split; [|done].
  unfold forward, flatten. cbn [map mapR]. rewrite E. done.
Qed.

Lemma nth_error_lookup {A} (l : list A) (i : nat) : nth_error l i = l !! i.
Proof. revert i. induction l as [|a l IH]; intros [|i]; simpl; auto. Qed.

Lemma getitem_lt {A} (l : list A) (i : nat) :
  i < length l -> exists a, getitem l i = Ok a /\ l !! i = Some a.
Proof.
  intros Hi. destruct (lookup_lt_is_Some_2 l i Hi) as [a Ha].
  exists a. split; [|done]. unfold getitem.
  by rewrite nth_error_lookup, Ha.
Qed.

(** C9: the inference cell runs the model on the one image with tracking
    disabled, takes the index of the first maximal entry of the ten output
    logits, and prints the string at that index of the ten-entry table
    [classes] (next to the string at the true label). *)
Theorem inference_selects_top_class (source : bool -> list (Image * nat)) (st : State)
    (x : Image) (y : nat) :
  getitem (samples (test_data source)) 0 = Ok (x, y) ->
  net_dims (model st) (28 * 28) 512 512 10 = true ->
  image_dims 1 28 28 x = true ->
  y < 10 ->
  exists row k predicted actual st',
    forward (model st) (Single3 x) = Ok [row]
    /\ length row = 10
    /\ is_argmax row k
    /\ length classes = 10
    /\ classes !! k = Some predicted
    /\ classes !! y = Some actual
    /\ inference_cell source st = Ok (tt, st')
    /\ stdout st' = stdout st ++ [LPredicted predicted actual]
    /\ calls st' = calls st ++ [CForward false]
    /\ parameters (model st') = parameters (model st).
Proof.
  intros Hxy D I Hy.
  destruct (forward_single_ok _ _ _ _ _ 28 28 x D I eq_refl) as (ch & -> & F & L).
  set (row := mlp (model st) (concat ch)) in *.
  destruct (argmax_spec row) as (k & Ek & Hk & Hlt).
  { intros E. rewrite E in L. done. }
  rewrite L in Hlt.
  destruct (getitem_lt classes k Hlt) as (predicted & Gp & Lp).
  destruct (getitem_lt classes y Hy) as (actual & Ga & La).
  exists row, k, predicted, actual.
  eexists. split; [exact F|]. split; [exact L|]. split; [exact Hk|].
  split; [reflexivity|]. split; [exact Lp|]. split; [exact La|].
  split; [|split; [|split]].
  - unfold inference_cell. rewrite bind_unfold. unfold model_eval.
    rewrite bind_unfold. unfold lift at 1. rewrite Hxy.
    unfold no_grad. rewrite bind_unfold. unfold call_model.
    cbn [model set_model set_grad_enabled grad_enabled].
    change (forward _ (Single3 [ch])) with (forward (model st) (Single3 [ch])).
    rewrite F. cbn [logits].
    rewrite bind_unfold. unfold lift at 1. cbn [getitem nth_error]. fold row.
    rewrite bind_unfold. unfold lift at 1. rewrite Ek.
    rewrite bind_unfold. unfold lift at 1. rewrite Gp.
    rewrite bind_unfold. unfold lift at 1. rewrite Ga.
    unfold print. reflexivity.
  - reflexivity.
  - reflexivity.
  - reflexivity.
Qed.

Lemma inference_selects_top_class_witness :
  getitem (samples (test_data Tiny.zero_source)) 0 = Ok (Tiny.zero_image, 9)
  /\ net_dims (model Tiny.zero_st) (28 * 28) 512 512 10 = true
  /\ image_dims 1 28 28 Tiny.zero_image = true
  /\ exists row k predicted actual st',
       forward (model Tiny.zero_st) (Single3 Tiny.zero_image) = Ok [row]
       /\ length row = 10
       /\ is_argmax row k
       /\ length classes = 10
       /\ classes !! k = Some predicted
       /\ classes !! 9 = Some actual
       /\ inference_cell Tiny.zero_source Tiny.zero_st = Ok (tt, st')
       /\ stdout st' = stdout Tiny.zero_st ++ [LPredicted predicted actual]
       /\ calls st' = calls Tiny.zero_st ++ [CForward false]
       /\ parameters (model st') = parameters (model Tiny.zero_st).
Proof.
  assert (H1 : getitem (samples (test_data Tiny.zero_source)) 0 = Ok (Tiny.zero_image, 9))
    by reflexivity.
  assert (H2 : net_dims (model Tiny.zero_st) (28 * 28) 512 512 10 = true)
    by (vm_compute; reflexivity).
  assert (H3 : image_dims 1 28 28 Tiny.zero_image = true) by (vm_compute; reflexivity).
  assert (H4 : 9 < 10) by lia.
  split; [exact H1|]. split; [exact H2|]. split; [exact H3|].
  exact (inference_selects_top_class Tiny.zero_source Tiny.zero_st Tiny.zero_image 9
           H1 H2 H3 H4).
Defined.

(** ** The training loop *)

(** *** Updating all parameters *)

Lemma update_parameters_ok (f : nat -> NNParameter -> result NNParameter)
    (g : nat -> NNParameter -> NNParameter) (m : NeuralNetwork) :
  (forall i p, parameters m !! i = Some p -> f i p = Ok (g i p)) ->
  update_parameters f m = Ok (map_parameters g m).
Proof.
  intros H. unfold update_parameters, Linear_update, map_parameters, Linear_map.
  rewrite (H 0 (weight (fc0 m)) eq_refl), (H 1 (bias (fc0 m)) eq_refl).
  rewrite (H 2 (weight (fc2 m)) eq_refl), (H 3 (bias (fc2 m)) eq_refl).
  rewrite (H 4 (weight (fc4 m)) eq_refl), (H 5 (bias (fc4 m)) eq_refl).
  reflexivity.
Qed.

Lemma parameters_map_parameters (g : nat -> NNParameter -> NNParameter) (m : NeuralNetwork) :
  parameters (map_parameters g m) = imap g (parameters m).
Proof. reflexivity. Qed.

Lemma values_lookup (m : NeuralNetwork) (i : nat) (p : NNParameter) :
  parameters m !! i = Some p -> values m !! i = Some (data p).
Proof. intros H. unfold values. by rewrite list_lookup_fmap, H. Qed.

Lemma grads_ok_lookup (m : NeuralNetwork) (i : nat) (p : NNParameter) (g : Tensor) :
  grads_ok m = true -> parameters m !! i = Some p -> grad p = Some g ->
  Tensor.shape g = Tensor.shape (data p).
Proof.
  unfold grads_ok. intros G Hp Hg.
  assert (Hin : In p (parameters m)).
  { apply list_elem_of_In. by eapply list_elem_of_lookup_2. }
  pose proof (proj1 (forallb_forall _ _) G p Hin) as Hb. simpl in Hb.
  rewrite Hg in Hb. by apply bool_decide_eq_true in Hb.
Qed.

(** Zeroing the buffers and accumulating a gradient of the right shape
    leaves exactly that gradient in the buffer. *)
Lemma accumulate_after_zero (p : NNParameter) (g : Tensor) :
  (forall old, grad p = Some old -> Tensor.shape old = Tensor.shape (data p)) ->
  Tensor.shape g = Tensor.shape (data p) ->
  accumulate_grad g (zero_param p) = Ok {| data := data p; grad := Some g |}.
Proof.
  intros Hold Hg. unfold accumulate_grad, zero_param. cbn [grad data].
  destruct (grad p) as [old|] eqn:E; cbn [option_map]; [|done].
  assert (S : Tensor.shape old = Tensor.shape g) by (rewrite Hg; by apply Hold).
  rewrite zip_ok by (by rewrite shape_map). cbn [rbind].
  by rewrite zip_total_zeros.
Qed.

Lemma sgd_param_ok (optimizer : SGD) (d g : Tensor) :
  Tensor.shape g = Tensor.shape d ->
  sgd_param optimizer {| data := d; grad := Some g |}
  = Ok {| data := zip_total (fun d gi => (d + - lr optimizer * gi)%Q) d g; grad := Some g |}.
Proof. intros S. unfold sgd_param. cbn [grad data]. by rewrite zip_ok. Qed.

(** *** The three optimizer calls of one iteration *)

Lemma zero_grad_ok (optimizer : SGD) (m : NeuralNetwork) (ge : bool) (o : list Line)
    (c : list Call) (f : gmap string StateDict) :
  zero_grad optimizer
    {| model := m; grad_enabled := ge; stdout := o; calls := c; files := f |}
  = Ok (tt, {| model := map_parameters (fun _ => zero_param) m; grad_enabled := ge;
               stdout := o; calls := c ++ [CZeroGrad]; files := f |}).
Proof.
  unfold zero_grad. cbn [model].
  by rewrite (update_parameters_ok _ (fun _ => zero_param)).
Qed.

Section TrainingStep.

Variable autograd : LossFn -> list Tensor -> Input -> list nat -> nat -> Tensor.
Hypothesis autograd_shapes : autograd_shaped autograd.

Lemma backward_after_zero (loss_fn : LossFn) (x : Input) (y : list nat) (v : Q)
    (m : NeuralNetwork) (ge : bool) (o : list Line) (c : list Call)
    (f : gmap string StateDict) :
  grads_ok m = true ->
  backward autograd {| item := v; loss_grad_fn := Some (loss_fn, x, y) |}
    {| model := map_parameters (fun _ => zero_param) m; grad_enabled := ge;
       stdout := o; calls := c; files := f |}
  = Ok (tt, {| model := map_parameters
                          (fun i p => {| data := data p;
                                         grad := Some (autograd loss_fn (values m) x y i) |})
                          m;
               grad_enabled := ge; stdout := o; calls := c ++ [CBackward]; files := f |}).
Proof.
  intros G. unfold backward. cbn [loss_grad_fn model].
  change (map data (parameters (map_parameters (fun _ => zero_param) m))) with (values m).
  rewrite (update_parameters_ok _
             (fun i p => {| data := data p;
                            grad := Some (autograd loss_fn (values m) x y i) |})).
  - reflexivity.
  - intros i p Hp. rewrite parameters_map_parameters, list_lookup_imap in Hp.
    destruct (parameters m !! i) as [p0|] eqn:E0; simplify_eq/=.
    apply accumulate_after_zero.
    + intros old Hold. by eapply grads_ok_lookup.
    + apply autograd_shapes. by apply values_lookup.
Qed.

Lemma step_after_backward (optimizer : SGD) (G : nat -> Tensor)
    (m : NeuralNetwork) (ge : bool) (o : list Line) (c : list Call)
    (f : gmap string StateDict) :
  (forall i p, parameters m !! i = Some p -> Tensor.shape (G i) = Tensor.shape (data p)) ->
  step optimizer
    {| model := map_parameters (fun i p => {| data := data p; grad := Some (G i) |}) m;
       grad_enabled := ge; stdout := o; calls := c; files := f |}
  = Ok (tt, {| model := map_parameters
                          (fun i p =>
                             {| data := zip_total (fun d gi => (d + - lr optimizer * gi)%Q)
                                                  (data p) (G i);
                                grad := Some (G i) |}) m;
               grad_enabled := ge; stdout := o; calls := c ++ [CStep]; files := f |}).
Proof.
  intros HG. unfold step. cbn [model].
  rewrite (update_parameters_ok _
             (fun i p =>
                {| data := zip_total (fun d gi => (d + - lr optimizer * gi)%Q) (data p) (G i);
                   grad := Some (G i) |})).
  - reflexivity.
  - intros i p Hp. rewrite parameters_map_parameters, list_lookup_imap in Hp.
    destruct (parameters m !! i) as [p0|] eqn:E0; simplify_eq/=.
    apply sgd_param_ok. by apply HG.
Qed.

(** One iteration of the training loop, in full. *)
Lemma train_batch_spec (size : nat) (loss_fn : LossFn) (optimizer : SGD) (batch : nat)
    (X : list Image) (y : list nat) (st : State) :
  grads_ok (model st) = true ->
  train_batch autograd size loss_fn optimizer batch (X, y) st
  = match forward (model st) (Batch4 X) with
    | Raise e => Raise e
    | Ok out =>
        if grad_enabled st
        then Ok (tt, after_train_batch autograd size loss_fn optimizer batch (X, y) out st)
        else Raise NoGradError
    end.
Proof.
  destruct st as [m ge o c f]. cbn [model grad_enabled]. intros G.
  unfold train_batch.
  rewrite bind_unfold. unfold call_model. cbn [model grad_enabled].
  destruct (forward m (Batch4 X)) as [out|e]; [|done].
  unfold add_call. cbn [model grad_enabled stdout calls files].
  rewrite bind_unfold. unfold call_loss_fn, add_call.
  cbn [logits grad_fn item model grad_enabled stdout calls files].
  rewrite bind_unfold, zero_grad_ok.
  rewrite bind_unfold.
  destruct ge; [|done].
  rewrite backward_after_zero by done.
  rewrite bind_unfold.
  rewrite (step_after_backward optimizer (autograd loss_fn (values m) (Batch4 X) y)).
  - unfold after_train_batch, trained_model, trained_param.
    cbn [fst snd model grad_enabled stdout calls files].
    rewrite <- !app_assoc. cbn [app].
    destruct (batch mod 100 =? 0).
    + reflexivity.
    + unfold mret, M_ret. by rewrite app_nil_r.
  - intros i p Hp. apply autograd_shapes. by apply values_lookup.
Qed.

End TrainingStep.

(** *** What a step preserves *)

Lemma forward_values (m1 m2 : NeuralNetwork) (x : Input) :
  values m1 = values m2 -> forward m1 x = forward m2 x.
Proof.
  unfold values, parameters. cbn [map]. intros E.
  injection E as E0 E1 E2 E3 E4 E5.
  unfold forward, linear_relu_stack. cbn [Sequential_forward Layer_forward].
  by rewrite E0, E1, E2, E3, E4, E5.
Qed.

Lemma Linear_dims_shape (l l' : Linear) (i o : nat) :
  Tensor.shape (data (weight l')) = Tensor.shape (data (weight l)) ->
  Tensor.shape (data (bias l')) = Tensor.shape (data (bias l)) ->
  Linear_dims l' i o = Linear_dims l i o.
Proof.
  unfold Linear_dims. intros Hw Hb.
  destruct (data (weight l')) as [|rows'], (data (weight l)) as [|rows]; simplify_eq/=; [done|].
  destruct (data (bias l')) as [bs'|], (data (bias l)) as [bs|]; simplify_eq/=; [|done].
  rewrite Hb. f_equal; [f_equal|].
  - by rewrite <- (length_map (@length Q) rows'), Hw, length_map.
  - assert (F : forall rs : list (list Q),
               forallb (fun r => length r =? i) rs
               = forallb (fun n => n =? i) (map (@length Q) rs)).
    { induction rs as [|r rs IH]; simpl; [done|]. by rewrite IH. }
    by rewrite !F, Hw.
Qed.

Section TrainingLoop.

Variable autograd : LossFn -> list Tensor -> Input -> list nat -> nat -> Tensor.
Hypothesis autograd_shapes : autograd_shaped autograd.
Variable loss_fn : LossFn.
Variable optimizer : SGD.

Lemma trained_param_shape (m : NeuralNetwork) (Xy : list Image * list nat)
    (i : nat) (p : NNParameter) :
  parameters m !! i = Some p ->
  Tensor.shape (data (trained_param autograd loss_fn optimizer (values m)
                        (fst Xy) (snd Xy) i p))
  = Tensor.shape (data p)
  /\ Tensor.shape (autograd loss_fn (values m) (Batch4 (fst Xy)) (snd Xy) i)
     = Tensor.shape (data p).
Proof.
  intros Hp.
  assert (S : Tensor.shape (autograd loss_fn (values m) (Batch4 (fst Xy)) (snd Xy) i)
              = Tensor.shape (data p)).
  { apply autograd_shapes. by apply values_lookup. }
  split; [|done]. unfold trained_param. cbn [data]. by apply shape_zip_total.
Qed.

Lemma trained_model_dims (m : NeuralNetwork) (Xy : list Image * list nat)
    (d0 d1 d2 d3 : nat) :
  net_dims (trained_model autograd loss_fn optimizer m Xy) d0 d1 d2 d3
  = net_dims m d0 d1 d2 d3.
Proof.
  unfold net_dims, trained_model, map_parameters. cbn [fc0 fc2 fc4].
  f_equal; [f_equal|]; apply Linear_dims_shape; cbn [Linear_map weight bias];
    by apply trained_param_shape.
Qed.

Lemma trained_model_grads_ok (m : NeuralNetwork) (Xy : list Image * list nat) :
  grads_ok (trained_model autograd loss_fn optimizer m Xy) = true.
Proof.
  unfold grads_ok, trained_model. rewrite parameters_map_parameters.
  apply forallb_forall. intros p' Hin. apply list_elem_of_In in Hin.
  apply list_elem_of_lookup in Hin as [i Hi]. rewrite list_lookup_imap in Hi.
  destruct (parameters m !! i) as [p|] eqn:Hp; simplify_eq/=.
  apply bool_decide_eq_true.
  destruct (trained_param_shape m Xy i p Hp) as [S1 S2].
  unfold trained_param in S1. cbn [data] in S1. by rewrite S1, S2.
Qed.

Lemma trained_model_values (m1 m2 : NeuralNetwork) (Xy : list Image * list nat) :
  values m1 = values m2 ->
  values (trained_model autograd loss_fn optimizer m1 Xy)
  = values (trained_model autograd loss_fn optimizer m2 Xy).
Proof.
  intros E. unfold trained_model. rewrite <- E.
  unfold values, parameters in E. cbn [map] in E.
  injection E as E0 E1 E2 E3 E4 E5.
  unfold values, parameters, map_parameters, Linear_map, trained_param.
  cbn [map fc0 fc2 fc4 weight bias data].
  by rewrite E0, E1, E2, E3, E4, E5.
Qed.

(** The whole loop, when every forward pass succeeds. *)
Lemma train_loop_ok (size : nat) (d0 d1 d2 d3 : nat)
    (bs : list (list Image * list nat)) (k : nat) (st : State) :
  grad_enabled st = true ->
  grads_ok (model st) = true ->
  net_dims (model st) d0 d1 d2 d3 = true ->
  Forall (fun Xy => Forall (fun img => length (concat (concat img)) = d0) (fst Xy)) bs ->
  exists st',
    for_each (enumerate_from k bs)
             (fun '(batch, Xy) => train_batch autograd size loss_fn optimizer batch Xy) st
    = Ok (tt, st')
    /\ model st' = fold_left (trained_model autograd loss_fn optimizer) bs (model st)
    /\ calls st' = calls st ++ concat (map (fun _ => step_calls) bs)
    /\ stdout st'
       = stdout st ++ progress_lines_from autograd size loss_fn optimizer k (model st) bs
    /\ grad_enabled st' = grad_enabled st
    /\ files st' = files st.
Proof.
  intros GE G D Hbs. revert k st GE G D.
  induction Hbs as [|[X y] bs HX _ IH]; intros k st GE G D.
  - exists st. cbn. by rewrite !app_nil_r.
  - cbn [enumerate_from for_each]. rewrite bind_unfold.
    rewrite (train_batch_spec autograd autograd_shapes) by done.
    cbn [fst] in HX. rewrite (forward_batch_ok _ _ _ _ _ X D HX), GE.
    destruct (IH (S k)
                (after_train_batch autograd size loss_fn optimizer k (X, y)
                   (batch_logits (model st) X) st))
      as (st' & E & Em & Ec & Eo & Eg & Ef).
    + done.
    + apply trained_model_grads_ok.
    + cbn [model after_train_batch]. by rewrite trained_model_dims.
    + exists st'. split; [exact E|].
      cbn [model calls stdout grad_enabled files after_train_batch fst snd] in *.
      rewrite Em, Ec, Eo, Eg, Ef.
      cbn [fold_left map concat progress_lines_from fst snd].
      rewrite <- !app_assoc. done.
Qed.

End TrainingLoop.

Lemma Tiny_autograd_shaped : autograd_shaped Tiny.autograd.
Proof.
  intros lf theta x y i t H. unfold Tiny.autograd. rewrite shape_map.
  by rewrite (nth_lookup_Some _ _ _ _ H).
Qed.

Lemma batches_sizes (dataloader : DataLoader) (d0 : nat) :
  Forall (fun s => length (concat (concat (fst s))) = d0) (samples (dataset dataloader)) ->
  Forall (fun Xy => Forall (fun img => length (concat (concat img)) = d0) (fst Xy))
         (batches dataloader).
Proof.
  intros Hs. unfold batches. apply Forall_map.
  rewrite <- (batches_concat dataloader) in Hs. apply Forall_concat in Hs.
  eapply Forall_impl; [exact Hs|]. intros b Hb. cbn [fst]. by apply Forall_map.
Qed.

(** C4 (amended): every iteration of the training loop calls the library
    in this order: forward pass on the batch, loss of that output against
    the batch labels, zeroing of the gradient buffers, gradients of that
    loss, update of the parameters.  The buffers are thus emptied before the
    gradients of each batch are accumulated, so each update moves a
    parameter by the learning rate times the gradient of its own batch,
    taken at the values before the update, whatever the buffers held. *)
Theorem train_steps_in_order
    (autograd : LossFn -> list Tensor -> Input -> list nat -> nat -> Tensor)
    (dataloader : DataLoader) (loss_fn : LossFn) (optimizer : SGD) (st : State)
    (d0 d1 d2 d3 : nat) :
  autograd_shaped autograd ->
  grad_enabled st = true ->
  grads_ok (model st) = true ->
  net_dims (model st) d0 d1 d2 d3 = true ->
  Forall (fun s => length (concat (concat (fst s))) = d0) (samples (dataset dataloader)) ->
  exists st',
    train autograd dataloader loss_fn optimizer st = Ok (tt, st')
    /\ calls st'
       = calls st
         ++ concat (map (fun _ => [CForward true; CLoss; CZeroGrad; CBackward; CStep])
                        (batches dataloader))
    /\ model st' = fold_left (trained_model autograd loss_fn optimizer)
                             (batches dataloader) (model st)
    /\ forall m Xy i p,
         parameters m !! i = Some p ->
         exists p',
           parameters (trained_model autograd loss_fn optimizer m Xy) !! i = Some p'
           /\ grad p' = Some (autograd loss_fn (values m) (Batch4 (fst Xy)) (snd Xy) i)
           /\ data p' = zip_total (fun d gi => (d + - lr optimizer * gi)%Q) (data p)
                          (autograd loss_fn (values m) (Batch4 (fst Xy)) (snd Xy) i).
Proof.
  intros A GE G D Hs.
  destruct (train_loop_ok autograd A loss_fn optimizer
              (length (samples (dataset dataloader))) d0 d1 d2 d3
              (batches dataloader) 0 st GE G D (batches_sizes _ _ Hs))
    as (st' & E & Em & Ec & _).
  exists st'. split; [exact E|]. split; [exact Ec|]. split; [exact Em|].
  intros m Xy i p Hp. unfold trained_model.
  rewrite parameters_map_parameters, list_lookup_imap, Hp. eexists. split; [reflexivity|].
  done.
Qed.

Lemma train_steps_in_order_witness :
  grad_enabled Tiny.st0_stale = true
  /\ grads_ok (model Tiny.st0_stale) = true
  /\ net_dims (model Tiny.st0_stale) 1 1 1 1 = true
  /\ exists st',
       train Tiny.autograd Tiny.dataloader Tiny.loss_fn optimizer Tiny.st0_stale = Ok (tt, st')
       /\ calls st'
          = calls Tiny.st0_stale
            ++ concat (map (fun _ => [CForward true; CLoss; CZeroGrad; CBackward; CStep])
                           (batches Tiny.dataloader))
       /\ model st' = fold_left (trained_model Tiny.autograd Tiny.loss_fn optimizer)
                                (batches Tiny.dataloader) (model Tiny.st0_stale).
Proof.
  split; [reflexivity|]. split; [reflexivity|]. split; [reflexivity|].
  destruct (train_steps_in_order Tiny.autograd Tiny.dataloader Tiny.loss_fn optimizer
              Tiny.st0_stale 1 1 1 1 Tiny_autograd_shaped eq_refl eq_refl eq_refl)
    as (st' & E & Ec & Em & _).
  - repeat constructor.
  - exists st'. split; [exact E|]. split; [exact Ec | exact Em].
Defined.

(** C4, as worded: the order in which the contract lists the operations
    (gradients, update, then discarding) is not the order of the code.
    After one batch the code's calls differ from it, and the buffers still
    hold the batch's gradient where the contract's order leaves them
    zeroed. *)
Lemma train_not_in_contract_order :
  exists st' st'',
    train_batch Tiny.autograd 3 Tiny.loss_fn optimizer 0
      ([Tiny.pixel 1; Tiny.pixel 2], [0; 0]) Tiny.st0 = Ok (tt, st')
    /\ calls st' = [CForward true; CLoss; CZeroGrad; CBackward; CStep]
    /\ calls st' <> contract_calls
    /\ contract_train_batch Tiny.autograd Tiny.loss_fn optimizer
         ([Tiny.pixel 1; Tiny.pixel 2], [0; 0]) Tiny.st0 = Ok (tt, st'')
    /\ calls st'' = contract_calls
    /\ map grad (parameters (model st')) <> map grad (parameters (model st'')).
Proof.
  eexists. eexists.
  split; [vm_compute; reflexivity|].
  split; [reflexivity|].
  split; [discriminate|].
  split; [vm_compute; reflexivity|].
  split; [reflexivity|].
  vm_compute. discriminate.
Qed.

(** ** Determinism of training *)

Section Determinism.

Variable autograd : LossFn -> list Tensor -> Input -> list nat -> nat -> Tensor.
Hypothesis autograd_shapes : autograd_shaped autograd.
Variable loss_fn : LossFn.
Variable optimizer : SGD.

Lemma train_loop_deterministic (size : nat) (bs : list (list Image * list nat))
    (k : nat) (st1 st2 : State) :
  values (model st1) = values (model st2) ->
  grad_enabled st1 = grad_enabled st2 ->
  grads_ok (model st1) = true -> grads_ok (model st2) = true ->
  match for_each (enumerate_from k bs)
          (fun '(batch, Xy) => train_batch autograd size loss_fn optimizer batch Xy) st1,
        for_each (enumerate_from k bs)
          (fun '(batch, Xy) => train_batch autograd size loss_fn optimizer batch Xy) st2
  with
  | Ok (_, st1'), Ok (_, st2') => values (model st1') = values (model st2')
  | Raise e1, Raise e2 => e1 = e2
  | _, _ => False
  end.
Proof.
  revert k st1 st2. induction bs as [|[X y] bs IH]; intros k st1 st2 V GE G1 G2.
  - exact V.
  - cbn [enumerate_from for_each]. rewrite !bind_unfold.
    rewrite !(train_batch_spec autograd autograd_shapes) by done.
    rewrite (forward_values _ _ (Batch4 X) V), GE.
    destruct (forward (model st2) (Batch4 X)) as [out|e]; [|done].
    destruct (grad_enabled st2) eqn:GE2; [|done].
    apply IH.
    + by apply trained_model_values.
    + cbn [grad_enabled after_train_batch]. congruence.
    + by apply trained_model_grads_ok.
    + by apply trained_model_grads_ok.
Qed.

End Determinism.

(** C7: two runs of the training loop over the same batches that start
    from the same parameter values end with the same parameter values (or
    stop with the same error), whatever else differs between the two
    starting states: the contents of the gradient buffers, the mode of the
    model, the output so far, the files.  The loop draws no random number. *)
Theorem training_is_deterministic
    (autograd : LossFn -> list Tensor -> Input -> list nat -> nat -> Tensor)
    (dataloader : DataLoader) (loss_fn : LossFn) (optimizer : SGD) (st1 st2 : State) :
  autograd_shaped autograd ->
  values (model st1) = values (model st2) ->
  grad_enabled st1 = grad_enabled st2 ->
  grads_ok (model st1) = true -> grads_ok (model st2) = true ->
  match train autograd dataloader loss_fn optimizer st1,
        train autograd dataloader loss_fn optimizer st2 with
  | Ok (_, st1'), Ok (_, st2') => values (model st1') = values (model st2')
  | Raise e1, Raise e2 => e1 = e2
  | _, _ => False
  end.
Proof.
  intros A V GE G1 G2. unfold train, enumerate.
  by apply train_loop_deterministic.
Qed.

Lemma training_is_deterministic_witness :
  values (model Tiny.st0) = values (model Tiny.st0_stale)
  /\ grads_ok (model Tiny.st0) = true
  /\ grads_ok (model Tiny.st0_stale) = true
  /\ match train Tiny.autograd Tiny.dataloader Tiny.loss_fn optimizer Tiny.st0,
           train Tiny.autograd Tiny.dataloader Tiny.loss_fn optimizer Tiny.st0_stale with
     | Ok (_, st1'), Ok (_, st2') => values (model st1') = values (model st2')
     | Raise e1, Raise e2 => e1 = e2
     | _, _ => False
     end.
Proof.
  split; [reflexivity|]. split; [reflexivity|]. split; [reflexivity|].
  exact (training_is_deterministic Tiny.autograd Tiny.dataloader Tiny.loss_fn optimizer
           Tiny.st0 Tiny.st0_stale Tiny_autograd_shaped eq_refl eq_refl eq_refl eq_refl).
Defined.

(** ** Progress lines *)

Lemma filter_map_comm {A B} (P : B -> bool) (f : A -> B) (l : list A) :
  List.filter P (map f l) = map f (List.filter (fun a => P (f a)) l).
Proof.
  induction l as [|a l IH]; simpl; [done|].
  destruct (P (f a)); simpl; by rewrite IH.
Qed.

Lemma progress_lines_closed
    (autograd : LossFn -> list Tensor -> Input -> list nat -> nat -> Tensor)
    (size : nat) (loss_fn : LossFn) (optimizer : SGD)
    (bs : list (list Image * list nat)) (k : nat) (m : NeuralNetwork) :
  progress_lines_from autograd size loss_fn optimizer k m bs
  = map (fun j =>
           LProgress
             (loss_fn (batch_logits (model_before autograd loss_fn optimizer m bs j)
                                    (fst (nth j bs ([], []))))
                      (snd (nth j bs ([], []))))
             ((k + j) * length (fst (nth j bs ([], [])))) size)
        (List.filter (fun j => (k + j) mod 100 =? 0) (seq 0 (length bs))).
Proof.
  revert k m. induction bs as [|Xy bs IH]; intros k m; [done|].
  cbn [progress_lines_from length seq List.filter].
  rewrite Nat.add_0_r. rewrite <- seq_shift, filter_map_comm, IH.
  assert (T : map (fun j =>
                LProgress
                  (loss_fn (batch_logits
                              (model_before autograd loss_fn optimizer m (Xy :: bs) j)
                              (fst (nth j (Xy :: bs) ([], []))))
                           (snd (nth j (Xy :: bs) ([], []))))
                  ((k + j) * length (fst (nth j (Xy :: bs) ([], [])))) size)
              (map S (List.filter (fun a => (k + S a) mod 100 =? 0) (seq 0 (length bs))))
            = map (fun j =>
                LProgress
                  (loss_fn (batch_logits
                              (model_before autograd loss_fn optimizer
                                 (trained_model autograd loss_fn optimizer m Xy) bs j)
                              (fst (nth j bs ([], []))))
                           (snd (nth j bs ([], []))))
                  ((S k + j) * length (fst (nth j bs ([], [])))) size)
              (List.filter (fun j => (S k + j) mod 100 =? 0) (seq 0 (length bs)))).
  { rewrite map_map.
    rewrite (List.filter_ext (fun a => (k + S a) mod 100 =? 0)
                             (fun j => (S k + j) mod 100 =? 0))
      by (intros a; by rewrite Nat.add_succ_r).
    apply map_ext. intros j. by rewrite Nat.add_succ_r. }
  destruct (k mod 100 =? 0); cbn [map app]; rewrite T; [|done].
  by rewrite Nat.add_0_r.
Qed.

Lemma printing_batches_spec (n k : nat) :
  In k (printing_batches n) <-> k < n /\ k mod 100 = 0.
Proof.
  unfold printing_batches. rewrite filter_In, in_seq, Nat.eqb_eq. lia.
Qed.

(** All batches but the last are full. *)
Lemma batch_sampler_full {A} (bs : nat) (l cur : list A) (j : nat) (b : list A) :
  length cur < bs ->
  batch_sampler bs cur l !! j = Some b ->
  S j < length (batch_sampler bs cur l) ->
  length b = bs.
Proof.
  revert cur j. induction l as [|a l IH]; intros cur j Hcur Hj Hlt.
  - simpl in *. destruct cur; simpl in *; lia.
  - cbn [batch_sampler] in *.
    destruct (length (cur ++ [a]) =? bs) eqn:E.
    + apply Nat.eqb_eq in E. destruct j as [|j]; simplify_eq/=; [done|].
      eapply (IH [] j); [simpl; lia | done | lia].
    + apply Nat.eqb_neq in E. eapply (IH (cur ++ [a]) j); [|done|done].
      rewrite length_app in *. simpl in *. lia.
Qed.

Lemma concat_take_full {A} (n : nat) (l : list (list A)) (k : nat) :
  (forall j b, j < k -> l !! j = Some b -> length b = n) ->
  k <= length l ->
  length (concat (take k l)) = k * n.
Proof.
  revert k. induction l as [|b l IH]; intros [|k] H Hk; simpl in *; try done; [lia|].
  rewrite length_app, (H 0 b) by (done || lia).
  rewrite IH; [lia| |lia]. intros j b' Hj Hb. apply (H (S j)); [lia|done].
Qed.

Lemma examples_before_raw (rb : list (list (Image * nat))) (k : nat) :
  examples_before (map (fun b => (map fst b, map snd b)) rb) k
  = length (concat (take k rb)).
Proof.
  unfold examples_before. revert k.
  induction rb as [|b rb IH]; intros [|k]; simpl; try done.
  rewrite !length_app, length_map. f_equal. apply IH.
Qed.

Lemma examples_before_full (dataloader : DataLoader) (k : nat) :
  0 < dl_batch_size dataloader ->
  k < length (batches dataloader) ->
  examples_before (batches dataloader) k = k * dl_batch_size dataloader.
Proof.
  intros Hbs Hk. unfold batches in *. rewrite length_map in Hk.
  rewrite examples_before_raw.
  apply concat_take_full; [|lia].
  intros j b Hj Hb. eapply batch_sampler_full; [|exact Hb|lia]. simpl. lia.
Qed.

(** What the training loop prints: one progress line for each batch whose
    number is a multiple of 100 and for no other batch, in order; the line
    of batch [k] carries the loss of that batch (on the model as it is
    before the batch's update), the product of [k] and the number of
    examples in that batch, and the dataset size.  The product is the
    number of examples in the earlier batches whenever the batch is
    full-size. *)
Theorem train_prints_progress
    (autograd : LossFn -> list Tensor -> Input -> list nat -> nat -> Tensor)
    (dataloader : DataLoader) (loss_fn : LossFn) (optimizer : SGD) (st : State)
    (d0 d1 d2 d3 : nat) :
  autograd_shaped autograd ->
  grad_enabled st = true ->
  grads_ok (model st) = true ->
  net_dims (model st) d0 d1 d2 d3 = true ->
  Forall (fun s => length (concat (concat (fst s))) = d0) (samples (dataset dataloader)) ->
  exists st',
    train autograd dataloader loss_fn optimizer st = Ok (tt, st')
    /\ stdout st'
       = stdout st
         ++ map (progress_line autograd (length (samples (dataset dataloader)))
                   loss_fn optimizer (model st) (batches dataloader))
                (printing_batches (length (batches dataloader)))
    /\ (forall k, In k (printing_batches (length (batches dataloader)))
                  <-> k < length (batches dataloader) /\ k mod 100 = 0)
    /\ (forall k X y,
          0 < dl_batch_size dataloader ->
          batches dataloader !! k = Some (X, y) ->
          length X = dl_batch_size dataloader ->
          k * length X = examples_before (batches dataloader) k).
Proof.
  intros A GE G D Hs.
  destruct (train_loop_ok autograd A loss_fn optimizer
              (length (samples (dataset dataloader))) d0 d1 d2 d3
              (batches dataloader) 0 st GE G D (batches_sizes _ _ Hs))
    as (st' & E & _ & _ & Eo & _).
  exists st'. split; [exact E|]. split; [|split].
  - rewrite Eo, progress_lines_closed. reflexivity.
  - intros k. apply printing_batches_spec.
  - intros k X y Hbs Hk HX. rewrite HX.
    symmetry. apply examples_before_full; [done|]. by eapply lookup_lt_Some.
Qed.

Lemma train_prints_progress_witness :
  grad_enabled Tiny.st0 = true
  /\ grads_ok (model Tiny.st0) = true
  /\ net_dims (model Tiny.st0) 1 1 1 1 = true
  /\ exists st',
       train Tiny.autograd Tiny.dataloader Tiny.loss_fn optimizer Tiny.st0 = Ok (tt, st')
       /\ stdout st'
          = stdout Tiny.st0
            ++ map (progress_line Tiny.autograd (length (samples (dataset Tiny.dataloader)))
                      Tiny.loss_fn optimizer (model Tiny.st0) (batches Tiny.dataloader))
                   (printing_batches (length (batches Tiny.dataloader))).
Proof.
  split; [reflexivity|]. split; [reflexivity|]. split; [reflexivity|].
  destruct (train_prints_progress Tiny.autograd Tiny.dataloader Tiny.loss_fn optimizer
              Tiny.st0 1 1 1 1 Tiny_autograd_shaped eq_refl eq_refl eq_refl)
    as (st' & E & Eo & _).
  - repeat constructor.
  - exists st'. split; [exact E | exact Eo].
Defined.

(** C8: the number on a progress line is the batch number times the size
    of the current batch, not a count of examples processed.  With 201
    examples in batches of two, the batch numbered 100 is the last and holds
    one example: its progress line reports 100, while 200 examples were
    processed before that batch and 201 up to and including it. *)
Lemma train_progress_on_partial_batch :
  exists st',
    train Tiny.autograd Tiny.long_dataloader Tiny.loss_fn Tiny.unit_step Tiny.st0
    = Ok (tt, st')
    /\ stdout st' = [LProgress 6 0 201; LProgress 0 100 201]
    /\ batches Tiny.long_dataloader !! 100 = Some ([Tiny.pixel 1], [0])
    /\ length (batches Tiny.long_dataloader) = 101
    /\ examples_before (batches Tiny.long_dataloader) 100 = 200
    /\ examples_through (batches Tiny.long_dataloader) 100 = 201.
Proof.
  eexists.
  split; [vm_compute; reflexivity|].
  split; [reflexivity|].
  split; [vm_compute; reflexivity|].
  split; [vm_compute; reflexivity|].
  split; vm_compute; reflexivity.
Qed.

(** ** Restoring a model from its checkpoint *)

Lemma Linear_dims_shapes (l : Linear) (i o : nat) :
  Linear_dims l i o = true ->
  Tensor.shape (data (weight l)) = inr (repeat i o)
  /\ Tensor.shape (data (bias l)) = inl o.
Proof.
  unfold Linear_dims. destruct (data (weight l)) as [|rows]; [done|].
  destruct (data (bias l)) as [bs|]; [|done]. intros D.
  apply andb_prop in D as [D Hrows]. apply andb_prop in D as [Hr Hb].
  apply Nat.eqb_eq in Hr, Hb. subst o. cbn [Tensor.shape]. split; [|by rewrite Hb].
  f_equal. clear Hb. induction rows as [|r rows IH]; simpl in *; [done|].
  apply andb_prop in Hrows as [H1 H2]. apply Nat.eqb_eq in H1. by rewrite H1, IH.
Qed.

Lemma net_dims_shapes (m m' : NeuralNetwork) (d0 d1 d2 d3 : nat) (i : nat)
    (p p' : NNParameter) :
  net_dims m d0 d1 d2 d3 = true -> net_dims m' d0 d1 d2 d3 = true ->
  parameters m !! i = Some p -> parameters m' !! i = Some p' ->
  Tensor.shape (data p) = Tensor.shape (data p').
Proof.
  unfold net_dims. intros D D' Hp Hp'.
  apply andb_prop in D as [D D4]. apply andb_prop in D as [D0 D2].
  apply andb_prop in D' as [D' D4']. apply andb_prop in D' as [D0' D2'].
  apply Linear_dims_shapes in D0 as [? ?], D2 as [? ?], D4 as [? ?].
  apply Linear_dims_shapes in D0' as [? ?], D2' as [? ?], D4' as [? ?].
  destruct i as [|[|[|[|[|[|i]]]]]]; simplify_eq/=; congruence.
Qed.

(** Saving the state dictionary of a model of the notebook's widths and
    loading it into a freshly constructed model gives a model with the same
    state dictionary. *)
Lemma checkpoint_restores_model (rng : nat -> nat -> nat -> Q) (st : State) :
  net_dims (model st) (28 * 28) 512 512 10 = true ->
  exists st',
    (saving_cell;; loading_cell rng) st = Ok (tt, st')
    /\ state_dict (model st') = state_dict (model st)
    /\ stdout st' = stdout st ++ [LSaved].
Proof.
  intros D. set (m := model st). set (sd := state_dict m).
  assert (U : update_parameters (load_param sd) (NeuralNetwork_init rng)
              = Ok (map_parameters
                      (fun i p => {| data := nth i (values m) (Tensor.T1 []);
                                     grad := grad p |})
                      (NeuralNetwork_init rng))).
  { apply update_parameters_ok. intros i p Hp. unfold load_param.
    assert (A : assoc (nth i parameter_names ""%string) sd
                = Some (nth i (values m) (Tensor.T1 []))
                /\ exists pm, parameters m !! i = Some pm
                              /\ data pm = nth i (values m) (Tensor.T1 [])).
    { apply lookup_lt_Some in Hp. cbn [parameters length] in Hp.
      destruct i as [|[|[|[|[|[|i]]]]]]; [..|lia];
        (split; [reflexivity | eexists; split; reflexivity]). }
    destruct A as (-> & pm & Hpm & <-).
    rewrite decide_True; [done|].
    apply (net_dims_shapes m (NeuralNetwork_init rng) _ _ _ _ i pm p D
             (NeuralNetwork_init_dims rng) Hpm Hp). }
  eexists. split; [|split].
  - rewrite bind_unfold. unfold saving_cell. rewrite bind_unfold. unfold get_model.
    rewrite bind_unfold. unfold torch_save. fold m. fold sd.
    unfold print at 1. unfold loading_cell. rewrite bind_unfold. unfold put_model.
    rewrite bind_unfold. unfold torch_load.
    cbn [files set_files add_line set_model]. rewrite lookup_insert_eq.
    unfold load_state_dict. cbn [model].
    replace (forallb _ (map fst sd)) with true by reflexivity.
    change (model (set_model (NeuralNetwork_init rng) _)) with (NeuralNetwork_init rng).
    rewrite U. reflexivity.
  - reflexivity.
  - reflexivity.
Qed.

(** ** Worked examples *)

Example batch_sampler_example :
  batch_sampler 2 [] [1; 2; 3; 4; 5] = [[1; 2]; [3; 4]; [5]].
Proof. reflexivity. Qed.

Example argmax_takes_first_maximum : Tensor.argmax [1; 3; 3; 2]%Q = Ok 1.
Proof. reflexivity. Qed.

Example relu_example : map Tensor.relu [-1; 0; 2 # 3]%Q = [0; 0; 2 # 3]%Q.
Proof. reflexivity. Qed.

(** One training pass and one evaluation pass over three one-pixel samples
    in batches of two: one progress line (batch 0), then two of three
    samples classified correctly. *)
Example tiny_train_then_test :
  exists st',
    (train Tiny.autograd Tiny.dataloader Tiny.loss_fn Tiny.unit_step;;
     test Tiny.loss_fn Tiny.dataloader) Tiny.st0 = Ok (tt, st')
    /\ stdout st' = [LProgress 8 0 3; LTest (200 # 3) (0 # 3)]
    /\ calls st' = [CForward true; CLoss; CZeroGrad; CBackward; CStep;
                    CForward true; CLoss; CZeroGrad; CBackward; CStep;
                    CForward false; CLoss; CForward false; CLoss]
    /\ grad_enabled st' = true
    /\ training (model st') = false.
Proof. eexists. split; [vm_compute; reflexivity|]. repeat split. Qed.

(** A checkpoint of a network of other widths does not load into a fresh
    [NeuralNetwork()]. *)
Example mismatched_checkpoint_fails :
  (saving_cell;; loading_cell (fun _ _ _ => 0%Q)) Tiny.st0 = Raise StateDictError.
Proof. vm_compute. reflexivity. Qed.

(** The evaluation of an empty dataset stops at the division. *)
Example test_on_empty_dataset :
  test Tiny.loss_fn {| dataset := {| ds_train := false; samples := [] |};
                       dl_batch_size := 64 |} Tiny.st0
  = Raise ZeroDivisionError.
Proof. reflexivity. Qed.

(** The inference cell on the all-zero network and image: all ten logits
    are 0, the first index wins. *)
Example inference_on_zero_network :
  exists st',
    inference_cell Tiny.zero_source Tiny.zero_st = Ok (tt, st')
    /\ stdout st' = [LPredicted "T-shirt/top" "Ankle boot"].
Proof. eexists. split; [vm_compute; reflexivity | reflexivity]. Qed.

(** * Further properties of the notebook *)

(** ** Batches *)

(** X1: iterating a loader yields every sample of its dataset exactly once
    and in order: the images of the batches, put end to end, are the images
    of the dataset, likewise the labels, and every batch has one label per
    image. *)
Theorem batches_cover_dataset (dataloader : DataLoader) :
  concat (map fst (batches dataloader)) = map fst (samples (dataset dataloader))
  /\ concat (map snd (batches dataloader)) = map snd (samples (dataset dataloader))
  /\ Forall (fun Xy => length (fst Xy) = length (snd Xy)) (batches dataloader).
Proof.
  unfold batches. rewrite !map_map. cbn [fst snd].
  rewrite <- !concat_map, batches_concat. split; [done|]. split; [done|].
  apply Forall_map. apply Forall_true. intros b. cbn [fst snd]. by rewrite !length_map.
Qed.

Lemma batch_sampler_bounds {A} (bs : nat) (l cur : list A) :
  length cur < bs ->
  Forall (fun b => 1 <= length b <= bs) (batch_sampler bs cur l).
Proof.
  revert cur. induction l as [|a l IH]; intros cur Hcur.
  - simpl. destruct cur; [constructor|]. constructor; [simpl in *; lia | constructor].
  - cbn [batch_sampler]. destruct (length (cur ++ [a]) =? bs) eqn:E.
    + apply Nat.eqb_eq in E. constructor; [lia|]. apply IH. simpl. lia.
    + apply Nat.eqb_neq in E. apply IH. rewrite length_app in *. simpl in *. lia.
Qed.

Lemma batch_sampler_count {A} (bs : nat) (l : list A) :
  0 < bs -> length (batch_sampler bs [] l) = (length l + bs - 1) / bs.
Proof.
  intros Hbs. set (rb := batch_sampler bs [] l).
  assert (C : length (concat rb) = length l)
    by (unfold rb; by rewrite batch_sampler_concat).
  assert (B : Forall (fun b => 1 <= length b <= bs) rb)
    by (apply batch_sampler_bounds; simpl; lia).
  assert (F : forall j b, rb !! j = Some b -> S j < length rb -> length b = bs).
  { intros j b Hj Hlt. eapply (batch_sampler_full bs l []); [simpl; lia | exact Hj | exact Hlt]. }
  clearbody rb. revert C B F.
  induction rb as [|lastb front _] using rev_ind; intros C B F.
  - simpl in C. rewrite <- C. simpl. symmetry. apply Nat.div_small. lia.
  - rewrite concat_app, length_app in C. simpl in C. rewrite app_nil_r in C.
    apply Forall_app in B as [_ Blast]. apply Forall_cons in Blast as [Blast _].
    assert (Hfront : length (concat front) = length front * bs).
    { pose proof (concat_take_full bs (front ++ [lastb]) (length front)) as Hc.
      rewrite take_app_length in Hc. apply Hc; [|rewrite length_app; lia].
      intros j b Hj Hb. apply (F j b Hb). rewrite length_app. simpl. lia. }
    rewrite length_app. simpl.
    apply (Nat.div_unique _ _ _ (length lastb - 1)); [lia|]. nia.
Qed.

(** X2: with a positive batch size every batch holds between one and
    [batch_size] examples, every batch but the last holds exactly
    [batch_size], and the number of batches is the dataset size divided by
    the batch size, rounded up. *)
Theorem batches_sizes_and_count (dataloader : DataLoader) :
  0 < dl_batch_size dataloader ->
  Forall (fun Xy => 1 <= length (fst Xy) <= dl_batch_size dataloader) (batches dataloader)
  /\ (forall k Xy, batches dataloader !! k = Some Xy ->
                   S k < length (batches dataloader) ->
                   length (fst Xy) = dl_batch_size dataloader)
  /\ length (batches dataloader)
     = (length (samples (dataset dataloader)) + dl_batch_size dataloader - 1)
       / dl_batch_size dataloader.
Proof.
  intros Hbs. unfold batches. split; [|split].
  - apply Forall_map. eapply Forall_impl.
    + apply (batch_sampler_bounds (dl_batch_size dataloader)). simpl. lia.
    + intros b Hb. cbn [fst]. by rewrite length_map.
  - intros k Xy Hk Hlt. rewrite length_map in Hlt. rewrite list_lookup_fmap in Hk.
    destruct (batch_sampler _ _ _ !! k) as [b|] eqn:Eb; simplify_eq/=.
    rewrite length_map. eapply batch_sampler_full; [|exact Eb|exact Hlt]. simpl. lia.
  - rewrite length_map. by apply batch_sampler_count.
Qed.

Lemma batches_sizes_and_count_witness :
  0 < dl_batch_size Tiny.long_dataloader
  /\ Forall (fun Xy => 1 <= length (fst Xy) <= 2) (batches Tiny.long_dataloader)
  /\ length (batches Tiny.long_dataloader) = (201 + 2 - 1) / 2.
Proof.
  assert (H : 0 < dl_batch_size Tiny.long_dataloader) by (simpl; lia).
  split; [exact H|].
  destruct (batches_sizes_and_count Tiny.long_dataloader H) as (B & _ & C).
  split; [exact B | exact C].
Defined.

(** ** Errors and shapes in the forward pass *)

Lemma Sequential_only_ShapeError (ls : list Layer) (x : list Q) (e : error) :
  Sequential_forward ls x = Raise e -> e = ShapeError.
Proof.
  revert x. induction ls as [|l ls IH]; intros x E; simpl in E; [done|].
  destruct (Layer_forward l x) as [y|e'] eqn:El; simpl in E.
  - by eapply IH.
  - simplify_eq. destruct l as [fc|]; simpl in El; [|done].
    unfold Tensor.linear in El. repeat case_match; by simplify_eq.
Qed.

Lemma mapR_Exists_raise {A B} (f : A -> result B) (E : error) (l : list A) :
  (forall a e, f a = Raise e -> e = E) ->
  Exists (fun a => f a = Raise E) l -> mapR f l = Raise E.
Proof.
  intros Honly. induction 1 as [a l Ha|a l _ IH]; simpl.
  - by rewrite Ha.
  - rewrite IH. destruct (f a) as [b|e] eqn:Ea; simpl; [done|].
    by rewrite (Honly _ _ Ea).
Qed.

Lemma Sequential_wrong_size (m : NeuralNetwork) (d0 d1 d2 d3 : nat) (x : list Q) :
  net_dims m d0 d1 d2 d3 = true -> 0 < d1 -> length x <> d0 ->
  Sequential_forward (linear_relu_stack m) x = Raise ShapeError.
Proof.
  unfold net_dims. intros D H1 Hx.
  apply andb_prop in D as [D _]. apply andb_prop in D as [D0 _].
  unfold linear_relu_stack. cbn [Sequential_forward Layer_forward].
  unfold Linear_dims in D0. unfold Tensor.linear.
  destruct (data (weight (fc0 m))) as [|rows]; [done|].
  destruct (data (bias (fc0 m))) as [bs|]; [|done].
  apply andb_prop in D0 as [D0 Hrows]. apply andb_prop in D0 as [Hr _].
  apply Nat.eqb_eq in Hr.
  destruct rows as [|r rows]; [simpl in Hr; lia|].
  cbn [forallb] in *. apply andb_prop in Hrows as [Hr0 _]. apply Nat.eqb_eq in Hr0.
  destruct (length r =? length x) eqn:E; [|done].
  apply Nat.eqb_eq in E. lia.
Qed.

(** X3: the forward pass checks the size of every image against the first
    layer: on a network with at least one hidden unit, a batch that holds an
    image whose flattened length is not the input width raises a shape
    error; and a shape error is the only error the forward pass raises. *)
Theorem forward_rejects_wrong_size (m : NeuralNetwork) (d0 d1 d2 d3 : nat)
    (X : list Image) :
  net_dims m d0 d1 d2 d3 = true -> 0 < d1 ->
  Exists (fun img => length (concat (concat img)) <> d0) X ->
  forward m (Batch4 X) = Raise ShapeError
  /\ forall x e, forward m x = Raise e -> e = ShapeError.
Proof.
  intros D H1 HX.
  assert (Only : forall x e, forward m x = Raise e -> e = ShapeError).
  { intros x e. unfold forward. generalize (flatten x). intros rows.
    induction rows as [|r rows IH]; cbn [mapR]; [done|].
    destruct (Sequential_forward (linear_relu_stack m) r) as [y|e'] eqn:Er; cbn [rbind].
    - destruct (mapR _ rows) as [ys|e'']; cbn [rbind]; [done|].
      intros E. apply IH. congruence.
    - intros E. simplify_eq. by eapply Sequential_only_ShapeError. }
  split; [|exact Only].
  unfold forward, flatten. apply mapR_Exists_raise.
  - intros a e. apply Sequential_only_ShapeError.
  - apply Exists_map. eapply Exists_impl; [exact HX|].
    intros img Himg. cbn beta. by eapply Sequential_wrong_size.
Qed.

Lemma forward_rejects_wrong_size_witness :
  net_dims Tiny.net 1 1 1 1 = true
  /\ Exists (fun img => length (concat (concat img)) <> 1) [Tiny.pixel 1; Small.wide]
  /\ forward Tiny.net (Batch4 [Tiny.pixel 1; Small.wide]) = Raise ShapeError.
Proof.
  assert (D : net_dims Tiny.net 1 1 1 1 = true) by reflexivity.
  assert (H1 : 0 < 1) by lia.
  assert (HX : Exists (fun img => length (concat (concat img)) <> 1)
                      [Tiny.pixel 1; Small.wide]).
  { apply Exists_cons_tl. apply Exists_cons_hd. simpl. lia. }
  split; [exact D|]. split; [exact HX|].
  exact (proj1 (forward_rejects_wrong_size Tiny.net 1 1 1 1 _ D H1 HX)).
Defined.

(** X4: called on one image without a batch dimension, the model treats
    the channels as the batch: it returns one row per channel, and for a
    one-channel image exactly what it returns for a batch holding that
    image. *)
Theorem forward_single_image (m : NeuralNetwork) :
  (forall ch : list (list Q), forward m (Single3 [ch]) = forward m (Batch4 [[ch]]))
  /\ (forall x : Image,
        match forward m (Single3 x) with
        | Ok out => length out = length x
        | Raise _ => True
        end).
Proof.
  split.
  - intros ch. unfold forward, flatten. cbn [map concat]. by rewrite !app_nil_r.
  - intros x. destruct (forward m (Single3 x)) as [out|e] eqn:E; [|done].
    unfold forward, flatten in E. apply mapR_length in E. by rewrite length_map in E.
Qed.

(** X5: the output of the model depends on the parameter values only: two
    models with the same values give the same result on every input,
    whatever their gradient buffers and whether they are in training or in
    evaluation mode. *)
Theorem forward_depends_on_values_only (m1 m2 : NeuralNetwork) (x : Input) :
  values m1 = values m2 -> forward m1 x = forward m2 x.
Proof. apply forward_values. Qed.

Lemma forward_depends_on_values_only_witness :
  values Tiny.net = values (model Tiny.st0_stale)
  /\ forward Tiny.net (Batch4 [Tiny.pixel 2])
     = forward (model Tiny.st0_stale) (Batch4 [Tiny.pixel 2]).
Proof.
  assert (V : values Tiny.net = values (model Tiny.st0_stale)) by reflexivity.
  split; [exact V|].
  exact (forward_depends_on_values_only Tiny.net (model Tiny.st0_stale) _ V).
Defined.

(** ** What the loops leave alone *)

Lemma keeps_ret {A} (a : A) : keeps_ambient (mret a : M A).
Proof. intros st a' st' E. by injection E as <- <-. Qed.

Lemma keeps_bind {A B} (c : M A) (k : A -> M B) :
  keeps_ambient c -> (forall a, keeps_ambient (k a)) -> keeps_ambient (c ≫= k).
Proof.
  intros Hc Hk st b st2 E. apply bind_inv in E as (a & st1 & E1 & E2).
  rewrite (Hk _ _ _ _ E2). by apply (Hc _ _ _ E1).
Qed.

Lemma keeps_lift {A} (r : result A) : keeps_ambient (lift r).
Proof. intros st a st' E. apply lift_inv in E as [_ ->]. done. Qed.

Lemma keeps_print (l : Line) : keeps_ambient (print l).
Proof. intros st a st' E. by injection E as <- <-. Qed.

Lemma keeps_call_model (x : Input) : keeps_ambient (call_model x).
Proof.
  intros st a st' E. unfold call_model in E.
  destruct (forward (model st) x); by simplify_eq.
Qed.

Lemma keeps_call_loss_fn (loss_fn : LossFn) (pred : Output) (y : list nat) :
  keeps_ambient (call_loss_fn loss_fn pred y).
Proof. intros st a st' E. by injection E as <- <-. Qed.

Lemma update_parameters_training (f : nat -> NNParameter -> result NNParameter)
    (m m' : NeuralNetwork) :
  update_parameters f m = Ok m' -> training m' = training m.
Proof.
  unfold update_parameters. intros E.
  repeat (apply rbind_ok in E as (? & _ & E)). by simplify_eq.
Qed.

Lemma keeps_zero_grad (optimizer : SGD) : keeps_ambient (zero_grad optimizer).
Proof.
  intros st a st' E. unfold zero_grad in E.
  destruct (update_parameters _ (model st)) as [m|e] eqn:U; simplify_eq.
  unfold ambient. cbn. by rewrite (update_parameters_training _ _ _ U).
Qed.

Lemma keeps_step (optimizer : SGD) : keeps_ambient (step optimizer).
Proof.
  intros st a st' E. unfold step in E.
  destruct (update_parameters _ (model st)) as [m|e] eqn:U; simplify_eq.
  unfold ambient. cbn. by rewrite (update_parameters_training _ _ _ U).
Qed.

Lemma keeps_backward
    (autograd : LossFn -> list Tensor -> Input -> list nat -> nat -> Tensor)
    (loss : Loss) :
  keeps_ambient (backward autograd loss).
Proof.
  intros st a st' E. unfold backward in E.
  destruct (loss_grad_fn loss) as [[[lf x] y]|]; [|done].
  destruct (update_parameters _ (model st)) as [m|e] eqn:U; simplify_eq.
  unfold ambient. cbn. by rewrite (update_parameters_training _ _ _ U).
Qed.

Lemma keeps_no_grad {A} (body : M A) : keeps_ambient body -> keeps_ambient (no_grad body).
Proof.
  intros Hb st a st' E. unfold no_grad in E.
  destruct (body (set_grad_enabled false st)) as [[a1 st1]|e] eqn:Eb; [|done].
  simplify_eq. apply Hb in Eb. unfold ambient in *. cbn in *.
  injection Eb as _ E2 E3. by rewrite E2, E3.
Qed.

Lemma keeps_fold_each {A B} (l : list A) (body : B -> A -> M B) (acc : B) :
  (forall b a, keeps_ambient (body b a)) -> keeps_ambient (fold_each l body acc).
Proof.
  intros Hb. revert acc. induction l as [|a l IH]; intros acc; simpl.
  - apply keeps_ret.
  - apply keeps_bind; [apply Hb | intros b; apply IH].
Qed.

Lemma keeps_for_each {A} (l : list A) (body : A -> M unit) :
  (forall a, keeps_ambient (body a)) -> keeps_ambient (for_each l body).
Proof.
  intros Hb. induction l as [|a l IH]; simpl.
  - apply keeps_ret.
  - apply keeps_bind; [apply Hb | intros _; apply IH].
Qed.

Lemma keeps_train_batch
    (autograd : LossFn -> list Tensor -> Input -> list nat -> nat -> Tensor)
    (size : nat) (loss_fn : LossFn) (optimizer : SGD) (batch : nat)
    (Xy : list Image * list nat) :
  keeps_ambient (train_batch autograd size loss_fn optimizer batch Xy).
Proof.
  destruct Xy as [X y]. unfold train_batch.
  apply keeps_bind; [apply keeps_call_model | intros pred].
  apply keeps_bind; [apply keeps_call_loss_fn | intros loss].
  apply keeps_bind; [apply keeps_zero_grad | intros _].
  apply keeps_bind; [apply keeps_backward | intros _].
  apply keeps_bind; [apply keeps_step | intros _].
  destruct (batch mod 100 =? 0); [apply keeps_print | apply keeps_ret].
Qed.

Lemma keeps_test_batch (loss_fn : LossFn) (acc : Q * Q) (Xy : list Image * list nat) :
  keeps_ambient (test_batch loss_fn acc Xy).
Proof.
  destruct acc as [l c], Xy as [X y]. unfold test_batch.
  apply keeps_bind; [apply keeps_call_model | intros pred].
  apply keeps_bind; [apply keeps_call_loss_fn | intros loss].
  apply keeps_bind; [apply keeps_lift | intros n].
  apply keeps_ret.
Qed.

(** X6: a completed training pass leaves the gradient mode, the files and
    the mode of the model as it found them; in particular it never puts the
    model back into training mode. *)
Theorem train_keeps_mode
    (autograd : LossFn -> list Tensor -> Input -> list nat -> nat -> Tensor)
    (dataloader : DataLoader) (loss_fn : LossFn) (optimizer : SGD) (st st' : State) :
  train autograd dataloader loss_fn optimizer st = Ok (tt, st') ->
  training (model st') = training (model st)
  /\ grad_enabled st' = grad_enabled st
  /\ files st' = files st.
Proof.
  intros E.
  assert (K : keeps_ambient (train autograd dataloader loss_fn optimizer)).
  { unfold train. apply keeps_for_each. intros [k Xy]. apply keeps_train_batch. }
  apply K in E. unfold ambient in E. injection E as E1 E2 E3. done.
Qed.

Lemma train_keeps_mode_witness :
  exists st',
    train Tiny.autograd Tiny.dataloader Tiny.loss_fn Tiny.unit_step Tiny.st0_stale
    = Ok (tt, st')
    /\ training (model st') = training (model Tiny.st0_stale)
    /\ grad_enabled st' = grad_enabled Tiny.st0_stale
    /\ files st' = files Tiny.st0_stale.
Proof.
  assert (E : exists st', train Tiny.autograd Tiny.dataloader Tiny.loss_fn Tiny.unit_step
                            Tiny.st0_stale = Ok (tt, st')).
  { eexists. vm_compute. reflexivity. }
  destruct E as [st' E]. exists st'. split; [exact E|].
  exact (train_keeps_mode _ _ _ _ _ _ E).
Defined.

(** X7: a completed evaluation pass leaves the model in evaluation mode,
    restores the gradient mode it found (tracking is off only inside the
    pass) and does not touch the files. *)
Theorem test_sets_eval_and_restores_grad_mode (loss_fn : LossFn) (dataloader : DataLoader)
    (st st' : State) :
  test loss_fn dataloader st = Ok (tt, st') ->
  training (model st') = false
  /\ grad_enabled st' = grad_enabled st
  /\ files st' = files st.
Proof.
  intros E. unfold test in E.
  apply bind_inv in E as ([] & st1 & E1 & E2).
  assert (K : keeps_ambient
                (acc ← no_grad (fold_each (batches dataloader) (test_batch loss_fn)
                                          (0%Q, 0%Q));
                 let '(test_loss, correct) := acc in
                 test_loss ← lift (truediv test_loss
                                     (length (samples (dataset dataloader))));
                 correct ← lift (truediv correct
                                   (length (samples (dataset dataloader))));
                 print (LTest (100 * correct)%Q test_loss))).
  { apply keeps_bind.
    { apply keeps_no_grad, keeps_fold_each. apply keeps_test_batch. }
    intros [l c].
    apply keeps_bind; [apply keeps_lift | intros l'].
    apply keeps_bind; [apply keeps_lift | intros c'].
    apply keeps_print. }
  apply K in E2. unfold model_eval in E1.
  injection E1 as <-. unfold ambient in E2. cbn in E2.
  injection E2 as E1 E2 E3. done.
Qed.

Lemma test_sets_eval_and_restores_grad_mode_witness :
  exists st',
    test Tiny.loss_fn Tiny.dataloader Tiny.st0 = Ok (tt, st')
    /\ training (model st') = false
    /\ grad_enabled st' = grad_enabled Tiny.st0
    /\ files st' = files Tiny.st0.
Proof.
  assert (E : exists st', test Tiny.loss_fn Tiny.dataloader Tiny.st0 = Ok (tt, st')).
  { eexists. vm_compute. reflexivity. }
  destruct E as [st' E]. exists st'. split; [exact E|].
  exact (test_sets_eval_and_restores_grad_mode _ _ _ _ E).
Defined.

(** ** The evaluation pass, in full *)

Lemma test_completes (loss_fn : LossFn) (dataloader : DataLoader) (st : State)
    (d0 d1 d2 d3 : nat) :
  0 < length (samples (dataset dataloader)) ->
  net_dims (model st) d0 d1 d2 d3 = true -> 0 < d3 ->
  Forall (fun s => length (concat (concat (fst s))) = d0) (samples (dataset dataloader)) ->
  exists l' c',
    test loss_fn dataloader st
    = Ok (tt, {| model := eval_mode (model st);
                 grad_enabled := grad_enabled st;
                 stdout := stdout st
                           ++ [LTest (100 * (c' / inject_Z (Z.of_nat
                                        (length (samples (dataset dataloader))))))
                                     (l' / inject_Z (Z.of_nat
                                        (length (samples (dataset dataloader)))))];
                 calls := calls st
                          ++ concat (map (fun _ => [CForward false; CLoss])
                                         (batches dataloader));
                 files := files st |})
    /\ (c' == inject_Z (Z.of_nat (correct_count (model st)
                                    (samples (dataset dataloader)))))%Q.
Proof.
  intros Hsize D H3 Hs.
  set (rb := batch_sampler (dl_batch_size dataloader) [] (samples (dataset dataloader))).
  set (st1 := set_grad_enabled false (set_model (eval_mode (model st)) st)).
  assert (Hrb : Forall (Forall (fun s => length (concat (concat (fst s))) = d0)) rb).
  { apply Forall_concat. unfold rb. by rewrite batches_concat. }
  destruct (test_loop_ok loss_fn d0 d1 d2 d3 rb st1 0%Q 0%Q eq_refl D H3 Hrb)
    as (l' & c' & E & _ & Hc).
  exists l', c'. split.
  - unfold test. rewrite bind_unfold. unfold model_eval. fold (eval_mode (model st)).
    rewrite bind_unfold. unfold no_grad. unfold batches. fold rb. fold st1.
    rewrite E. cbn [grad_enabled set_model].
    rewrite bind_unfold. unfold lift at 1. rewrite truediv_ok by done.
    rewrite bind_unfold. unfold lift at 1. rewrite truediv_ok by done.
    unfold print, add_line, set_grad_enabled, add_calls, st1, set_model.
    cbn [model grad_enabled stdout calls files]. by rewrite map_map.
  - rewrite Hc. unfold rb. rewrite batches_concat. ring_simplify. reflexivity.
Qed.

Lemma correct_count_le (m : NeuralNetwork) (l : list (Image * nat)) :
  correct_count m l <= length l.
Proof. unfold correct_count. apply List.filter_length_le. Qed.

Lemma percentage_in_range (c : Q) (n s : nat) :
  0 < s -> n <= s -> (c == inject_Z (Z.of_nat n))%Q ->
  (0 <= 100 * (c / inject_Z (Z.of_nat s)) <= 100)%Q.
Proof.
  intros Hs Hn Hc. rewrite Hc.
  assert (Ps : (0 < inject_Z (Z.of_nat s))%Q).
  { change 0%Q with (inject_Z 0). rewrite <- Zlt_Qlt. lia. }
  assert (L : (0 <= inject_Z (Z.of_nat n) / inject_Z (Z.of_nat s))%Q).
  { apply Qle_shift_div_l; [exact Ps|]. rewrite Qmult_0_l.
    change 0%Q with (inject_Z 0). rewrite <- Zle_Qle. lia. }
  assert (U : (inject_Z (Z.of_nat n) / inject_Z (Z.of_nat s) <= 1)%Q).
  { apply Qle_shift_div_r; [exact Ps|]. rewrite Qmult_1_l.
    rewrite <- Zle_Qle. lia. }
  split.
  - apply Qmult_le_0_compat; [done | exact L].
  - rewrite <- (Qmult_1_r 100) at 2. apply Qmult_le_l; [done | exact U].
Qed.

(** X8: the accuracy the evaluation pass prints is a percentage: it lies
    between 0 and 100, because the pass counts at most one correct
    prediction per example of the dataset. *)
Theorem test_accuracy_is_a_percentage (loss_fn : LossFn) (dataloader : DataLoader)
    (st : State) (d0 d1 d2 d3 : nat) :
  0 < length (samples (dataset dataloader)) ->
  net_dims (model st) d0 d1 d2 d3 = true -> 0 < d3 ->
  Forall (fun s => length (concat (concat (fst s))) = d0) (samples (dataset dataloader)) ->
  exists st' accuracy avg_loss,
    test loss_fn dataloader st = Ok (tt, st')
    /\ stdout st' = stdout st ++ [LTest accuracy avg_loss]
    /\ (0 <= accuracy <= 100)%Q
    /\ correct_count (model st) (samples (dataset dataloader))
       <= length (samples (dataset dataloader)).
Proof.
  intros Hsize D H3 Hs.
  destruct (test_completes loss_fn dataloader st d0 d1 d2 d3 Hsize D H3 Hs)
    as (l' & c' & E & Hc).
  eexists. eexists. eexists. split; [exact E|]. split; [reflexivity|]. split.
  - eapply percentage_in_range; [exact Hsize | apply correct_count_le | exact Hc].
  - apply correct_count_le.
Qed.

Lemma test_accuracy_is_a_percentage_witness :
  0 < length (samples (dataset Tiny.dataloader))
  /\ net_dims (model Tiny.st0) 1 1 1 1 = true
  /\ exists st' accuracy avg_loss,
       test Tiny.loss_fn Tiny.dataloader Tiny.st0 = Ok (tt, st')
       /\ stdout st' = stdout Tiny.st0 ++ [LTest accuracy avg_loss]
       /\ (0 <= accuracy <= 100)%Q
       /\ correct_count (model Tiny.st0) (samples (dataset Tiny.dataloader))
          <= length (samples (dataset Tiny.dataloader)).
Proof.
  split; [simpl; lia|]. split; [reflexivity|].
  apply (test_accuracy_is_a_percentage Tiny.loss_fn Tiny.dataloader Tiny.st0 1 1 1 1).
  - simpl; lia.
  - reflexivity.
  - lia.
  - repeat constructor.
Defined.

(** X9: on an empty dataset the evaluation pass raises
    [ZeroDivisionError]: no batch is run and the accumulated loss is divided
    by a size of zero. *)
Theorem test_raises_on_empty_dataset (loss_fn : LossFn) (dataloader : DataLoader)
    (st : State) :
  samples (dataset dataloader) = [] ->
  test loss_fn dataloader st = Raise ZeroDivisionError.
Proof.
  intros H. unfold test, batches. rewrite H. reflexivity.
Qed.

Lemma test_raises_on_empty_dataset_witness :
  samples (dataset (test_dataloader Small.no_training)) = []
  /\ test Tiny.loss_fn (test_dataloader Small.no_training) Tiny.st0
     = Raise ZeroDivisionError.
Proof.
  assert (H : samples (dataset (test_dataloader Small.no_training)) = []) by reflexivity.
  split; [exact H|].
  exact (test_raises_on_empty_dataset Tiny.loss_fn _ Tiny.st0 H).
Defined.

(** ** The epoch loop *)

Section EpochLoop.

Variable autograd : LossFn -> list Tensor -> Input -> list nat -> nat -> Tensor.
Hypothesis autograd_shapes : autograd_shaped autograd.
Variable loss_fn : LossFn.
Variable source : bool -> list (Image * nat).
Variables d0 d1 d2 d3 : nat.
Hypothesis output_width : 0 < d3.
Hypothesis training_data_nonempty : 0 < length (source true).
Hypothesis training_data_sizes :
  Forall (fun s => length (concat (concat (fst s))) = d0) (source true).

Lemma progress_lines_kind (size k : nat) (m : NeuralNetwork)
    (bs : list (list Image * list nat)) :
  List.filter is_epoch_line (progress_lines_from autograd size loss_fn optimizer k m bs) = []
  /\ List.filter is_test_line (progress_lines_from autograd size loss_fn optimizer k m bs) = [].
Proof.
  revert k m. induction bs as [|Xy bs IH]; intros k m; [done|].
  cbn [progress_lines_from]. rewrite !List.filter_app.
  destruct (IH (S k) (trained_model autograd loss_fn optimizer m Xy)) as [-> ->].
  by destruct (k mod 100 =? 0).
Qed.

Lemma train_pass_dims (bs : list (list Image * list nat)) (m : NeuralNetwork) :
  net_dims (train_pass autograd loss_fn optimizer bs m) d0 d1 d2 d3
  = net_dims m d0 d1 d2 d3.
Proof.
  unfold train_pass. revert m. induction bs as [|Xy bs IH]; intros m; [done|].
  cbn [fold_left]. rewrite IH. by apply trained_model_dims.
Qed.

Lemma train_pass_grads_ok (bs : list (list Image * list nat)) (m : NeuralNetwork) :
  grads_ok m = true -> grads_ok (train_pass autograd loss_fn optimizer bs m) = true.
Proof.
  unfold train_pass. revert m. induction bs as [|Xy bs IH]; intros m G; [done|].
  cbn [fold_left]. apply IH. by apply trained_model_grads_ok.
Qed.

Lemma train_pass_values (bs : list (list Image * list nat)) (m1 m2 : NeuralNetwork) :
  values m1 = values m2 ->
  values (train_pass autograd loss_fn optimizer bs m1)
  = values (train_pass autograd loss_fn optimizer bs m2).
Proof.
  unfold train_pass. revert m1 m2. induction bs as [|Xy bs IH]; intros m1 m2 V; [done|].
  cbn [fold_left]. apply IH. by apply trained_model_values.
Qed.

Lemma iter_pass_values (bs : list (list Image * list nat)) (n : nat)
    (m1 m2 : NeuralNetwork) :
  values m1 = values m2 ->
  values (Nat.iter n (train_pass autograd loss_fn optimizer bs) m1)
  = values (Nat.iter n (train_pass autograd loss_fn optimizer bs) m2).
Proof.
  intros V. induction n as [|n IH]; [done|]. cbn [Nat.iter]. by apply train_pass_values.
Qed.

(** One epoch: the header, one training pass, one evaluation pass. *)
Lemma epoch_ok (t : nat) (st : State) :
  grad_enabled st = true ->
  grads_ok (model st) = true ->
  net_dims (model st) d0 d1 d2 d3 = true ->
  exists st' lines,
    epoch autograd loss_fn source t st = Ok (tt, st')
    /\ grad_enabled st' = true
    /\ grads_ok (model st') = true
    /\ net_dims (model st') d0 d1 d2 d3 = true
    /\ training (model st') = false
    /\ values (model st')
       = values (train_pass autograd loss_fn optimizer
                   (batches (train_dataloader source)) (model st))
    /\ stdout st' = stdout st ++ LEpoch (t + 1) :: lines
    /\ List.filter is_epoch_line lines = []
    /\ length (List.filter is_test_line lines) = 1.
Proof.
  intros GE G D.
  assert (Hs : Forall (fun s => length (concat (concat (fst s))) = d0)
                      (samples (dataset (train_dataloader source))))
    by exact training_data_sizes.
  destruct (train_loop_ok autograd autograd_shapes loss_fn optimizer
              (length (samples (dataset (train_dataloader source)))) d0 d1 d2 d3
              (batches (train_dataloader source)) 0 (add_line (LEpoch (t + 1)) st)
              GE G D (batches_sizes _ _ Hs))
    as (st1 & E1 & Em & _ & Eo & Eg & _).
  cbn [model stdout grad_enabled add_line] in Em, Eo, Eg.
  fold (train_pass autograd loss_fn optimizer (batches (train_dataloader source)) (model st))
    in Em.
  assert (D1 : net_dims (model st1) d0 d1 d2 d3 = true)
    by (by rewrite Em, train_pass_dims).
  destruct (test_completes loss_fn (test_dataloader source) st1 d0 d1 d2 d3)
    as (l' & c' & E2 & _); [exact training_data_nonempty | exact D1 | exact output_width
                            | exact training_data_sizes |].
  eexists. eexists.
  split; [|split; [|split; [|split; [|split; [|split; [|split; [|split]]]]]]].
  - unfold epoch. rewrite bind_unfold. unfold print at 1.
    rewrite bind_unfold. unfold train, enumerate. rewrite E1. exact E2.
  - cbn [grad_enabled]. congruence.
  - cbn [model]. change (grads_ok (eval_mode (model st1))) with (grads_ok (model st1)).
    rewrite Em. by apply train_pass_grads_ok.
  - exact D1.
  - reflexivity.
  - cbn [model]. change (values (eval_mode (model st1))) with (values (model st1)).
    by rewrite Em.
  - cbn [stdout]. rewrite Eo. rewrite <- !app_assoc. cbn [app]. reflexivity.
  - rewrite List.filter_app. rewrite (proj1 (progress_lines_kind _ _ _ _)). reflexivity.
  - rewrite List.filter_app. rewrite (proj2 (progress_lines_kind _ _ _ _)). reflexivity.
Qed.

(** The epochs numbered [a], ..., [a + n - 1]. *)
Lemma epochs_ok (n a : nat) (st : State) :
  grad_enabled st = true ->
  grads_ok (model st) = true ->
  net_dims (model st) d0 d1 d2 d3 = true ->
  exists st' lines,
    for_each (seq a n) (epoch autograd loss_fn source) st = Ok (tt, st')
    /\ grad_enabled st' = true
    /\ (0 < n -> training (model st') = false)
    /\ values (model st')
       = values (Nat.iter n (train_pass autograd loss_fn optimizer
                               (batches (train_dataloader source))) (model st))
    /\ stdout st' = stdout st ++ lines
    /\ List.filter is_epoch_line lines = map (fun t => LEpoch (t + 1)) (seq a n)
    /\ length (List.filter is_test_line lines) = n.
Proof.
  revert a st. induction n as [|n IH]; intros a st GE G D.
  - exists st, []. cbn. rewrite app_nil_r. repeat split; try done. lia.
  - destruct (epoch_ok a st GE G D)
      as (st1 & lines1 & E1 & GE1 & G1 & D1 & T1 & V1 & O1 & F1 & C1).
    destruct (IH (S a) st1 GE1 G1 D1) as (st2 & lines2 & E2 & GE2 & T2 & V2 & O2 & F2 & C2).
    exists st2, (LEpoch (a + 1) :: lines1 ++ lines2).
    split; [|split; [|split; [|split; [|split; [|split]]]]].
    + cbn [seq for_each]. by rewrite bind_unfold, E1.
    + exact GE2.
    + intros _. destruct n as [|n]; [|apply T2; lia].
      cbn in E2. injection E2 as <-. exact T1.
    + rewrite V2. rewrite Nat.iter_succ_r. by apply iter_pass_values.
    + rewrite O2, O1. rewrite <- app_assoc. reflexivity.
    + cbn [List.filter is_epoch_line seq map]. rewrite List.filter_app, F1, F2. reflexivity.
    + cbn [List.filter is_test_line]. rewrite List.filter_app, length_app, C1, C2. lia.
Qed.

End EpochLoop.

(** X10: on a non-empty training split of images that fit the model, the
    training cell completes: it prints fifteen epoch headers, numbered 1 to
    15 in order, one evaluation line per epoch and [Done!] last; the
    parameter values at the end are those of fifteen successive training
    passes over the training batches, the model is left in evaluation mode
    and gradient tracking enabled. *)
Theorem training_cell_runs_fifteen_epochs
    (autograd : LossFn -> list Tensor -> Input -> list nat -> nat -> Tensor)
    (loss_fn : LossFn) (source : bool -> list (Image * nat)) (st : State)
    (d0 d1 d2 d3 : nat) :
  autograd_shaped autograd ->
  0 < d3 ->
  0 < length (source true) ->
  Forall (fun s => length (concat (concat (fst s))) = d0) (source true) ->
  grad_enabled st = true ->
  grads_ok (model st) = true ->
  net_dims (model st) d0 d1 d2 d3 = true ->
  exists st' lines,
    training_cell autograd loss_fn source st = Ok (tt, st')
    /\ stdout st' = stdout st ++ lines ++ [LDone]
    /\ List.filter is_epoch_line lines = map LEpoch (seq 1 15)
    /\ length (List.filter is_test_line lines) = 15
    /\ values (model st')
       = values (Nat.iter 15 (train_pass autograd loss_fn optimizer
                                (batches (train_dataloader source))) (model st))
    /\ training (model st') = false
    /\ grad_enabled st' = true.
Proof.
  intros A H3 Hn Hs GE G D.
  destruct (epochs_ok autograd A loss_fn source d0 d1 d2 d3 H3 Hn Hs epochs 0 st GE G D)
    as (st1 & lines & E & GE1 & T1 & V1 & O1 & F1 & C1).
  exists (add_line LDone st1), lines.
  split; [|split; [|split; [|split; [|split; [|split]]]]].
  - unfold training_cell. by rewrite bind_unfold, E.
  - cbn [stdout add_line]. by rewrite O1, app_assoc.
  - exact F1.
  - exact C1.
  - exact V1.
  - apply T1. unfold epochs. lia.
  - exact GE1.
Qed.

Lemma training_cell_runs_fifteen_epochs_witness :
  0 < length (Tiny.source true)
  /\ grads_ok (model Tiny.st0) = true
  /\ net_dims (model Tiny.st0) 1 1 1 1 = true
  /\ exists st' lines,
       training_cell Tiny.autograd Tiny.loss_fn Tiny.source Tiny.st0 = Ok (tt, st')
       /\ stdout st' = stdout Tiny.st0 ++ lines ++ [LDone]
       /\ List.filter is_epoch_line lines = map LEpoch (seq 1 15)
       /\ length (List.filter is_test_line lines) = 15
       /\ values (model st')
          = values (Nat.iter 15 (train_pass Tiny.autograd Tiny.loss_fn optimizer
                                   (batches (train_dataloader Tiny.source)))
                             (model Tiny.st0))
       /\ training (model st') = false
       /\ grad_enabled st' = true.
Proof.
  split; [simpl; lia|]. split; [reflexivity|]. split; [reflexivity|].
  apply (training_cell_runs_fifteen_epochs Tiny.autograd Tiny.loss_fn Tiny.source
           Tiny.st0 1 1 1 1 Tiny_autograd_shaped).
  - lia.
  - simpl; lia.
  - repeat constructor.
  - reflexivity.
  - reflexivity.
  - reflexivity.
Defined.

(** X11: when the training split is empty, the first epoch raises
    [ZeroDivisionError], and with it the training cell.  In that epoch the
    header is printed, the training pass has no batch to run and returns
    the state as it is, and the evaluation pass, which reads the same
    split, raises when it divides by a size of zero. *)
Theorem training_cell_raises_on_empty_training_data
    (autograd : LossFn -> list Tensor -> Input -> list nat -> nat -> Tensor)
    (loss_fn : LossFn) (source : bool -> list (Image * nat)) (st : State) :
  source true = [] ->
  (print (LEpoch 1);; train autograd (train_dataloader source) loss_fn optimizer) st
  = Ok (tt, add_line (LEpoch 1) st)
  /\ test loss_fn (test_dataloader source) (add_line (LEpoch 1) st)
     = Raise ZeroDivisionError
  /\ epoch autograd loss_fn source 0 st = Raise ZeroDivisionError
  /\ training_cell autograd loss_fn source st = Raise ZeroDivisionError.
Proof.
  intros H.
  assert (B : batches (train_dataloader source) = []).
  { unfold batches, train_dataloader, training_data, FashionMNIST. cbn. by rewrite H. }
  assert (T : forall st1, test loss_fn (test_dataloader source) st1
                          = Raise ZeroDivisionError).
  { intros st1. unfold test, batches, test_dataloader, training_data, FashionMNIST.
    cbn [samples dataset]. rewrite H. reflexivity. }
  assert (P : (print (LEpoch 1);; train autograd (train_dataloader source) loss_fn optimizer)
                st = Ok (tt, add_line (LEpoch 1) st)).
  { rewrite bind_unfold. unfold print at 1. unfold train. rewrite B. reflexivity. }
  assert (E : epoch autograd loss_fn source 0 st = Raise ZeroDivisionError).
  { unfold epoch. rewrite bind_unfold. unfold print at 1.
    rewrite bind_unfold. unfold train. rewrite B. cbn [enumerate enumerate_from for_each].
    unfold mret, M_ret. apply T. }
  split; [exact P|]. split; [apply T|]. split; [exact E|].
  unfold training_cell, epochs. cbn [seq for_each].
  rewrite !bind_unfold. by rewrite E.
Qed.

Lemma training_cell_raises_on_empty_training_data_witness :
  Small.no_training true = []
  /\ (print (LEpoch 1);;
      train Tiny.autograd (train_dataloader Small.no_training) Tiny.loss_fn optimizer)
       Tiny.st0
     = Ok (tt, add_line (LEpoch 1) Tiny.st0)
  /\ test Tiny.loss_fn (test_dataloader Small.no_training) (add_line (LEpoch 1) Tiny.st0)
     = Raise ZeroDivisionError
  /\ epoch Tiny.autograd Tiny.loss_fn Small.no_training 0 Tiny.st0
     = Raise ZeroDivisionError
  /\ training_cell Tiny.autograd Tiny.loss_fn Small.no_training Tiny.st0
     = Raise ZeroDivisionError.
Proof.
  assert (H : Small.no_training true = []) by reflexivity.
  split; [exact H|].
  exact (training_cell_raises_on_empty_training_data Tiny.autograd Tiny.loss_fn
           Small.no_training Tiny.st0 H).
Defined.

(** ** Edge cases of the inference cell *)

(** X12: when the held-out split is empty the inference cell raises
    [IndexError], and it does so at [test_data[0]], before the model is
    called: [model.eval()] completes and calls nothing, the first two
    statements of the cell, [model.eval()] and [test_data[0]], already
    raise [IndexError], and so does the cell, whatever the model. *)
Theorem inference_raises_on_empty_test_data (source : bool -> list (Image * nat))
    (st : State) :
  source false = [] ->
  (exists st1, model_eval st = Ok (tt, st1) /\ calls st1 = calls st)
  /\ (model_eval;; lift (getitem (samples (test_data source)) 0)) st = Raise IndexError
  /\ inference_cell source st = Raise IndexError.
Proof.
  intros H. split; [|split].
  - eexists. split; [reflexivity|]. reflexivity.
  - rewrite bind_unfold. unfold model_eval, lift, test_data, FashionMNIST.
    cbn [samples]. rewrite H. reflexivity.
  - unfold inference_cell. rewrite bind_unfold. unfold model_eval.
    rewrite bind_unfold. unfold test_data, FashionMNIST. cbn [samples].
    rewrite H. reflexivity.
Qed.

Lemma inference_raises_on_empty_test_data_witness :
  Small.no_test false = []
  /\ (exists st1, model_eval Tiny.st0 = Ok (tt, st1) /\ calls st1 = calls Tiny.st0)
  /\ (model_eval;; lift (getitem (samples (test_data Small.no_test)) 0)) Tiny.st0
     = Raise IndexError
  /\ inference_cell Small.no_test Tiny.st0 = Raise IndexError.
Proof.
  assert (H : Small.no_test false = []) by reflexivity.
  split; [exact H|].
  exact (inference_raises_on_empty_test_data Small.no_test Tiny.st0 H).
Defined.

Lemma argmax_from_keeps (best_i i : nat) (best : Q) (l : list Q) :
  Forall (fun v => (v <= best)%Q) l -> Tensor.argmax_from best_i best i l = best_i.
Proof.
  intros H. revert i. induction H as [|v l Hv _ IH]; intros i; simpl; [done|].
  apply Qle_bool_iff in Hv. rewrite Hv. apply IH.
Qed.

(** X13: ties go to the first class.  Whenever no logit of the image
    exceeds the first one (in particular when the last ReLU has set all of
    them to zero) the inference cell prints the first entry of [classes],
    "T-shirt/top", as the prediction. *)
Theorem inference_predicts_first_class_on_ties (source : bool -> list (Image * nat))
    (st : State) (x : Image) (y : nat) (v0 : Q) (rest : list Q)
    (others : list (list Q)) :
  getitem (samples (test_data source)) 0 = Ok (x, y) ->
  forward (model st) (Single3 x) = Ok ((v0 :: rest) :: others) ->
  Forall (fun v => (v <= v0)%Q) rest ->
  y < 10 ->
  exists actual st',
    inference_cell source st = Ok (tt, st')
    /\ classes !! y = Some actual
    /\ stdout st' = stdout st ++ [LPredicted "T-shirt/top" actual].
Proof.
  intros Hxy F Hrest Hy.
  destruct (getitem_lt classes y Hy) as (actual & Ga & La).
  exists actual. eexists. split.
  - unfold inference_cell. rewrite bind_unfold. unfold model_eval.
    rewrite bind_unfold. unfold lift at 1. rewrite Hxy.
    unfold no_grad. rewrite bind_unfold. unfold call_model.
    cbn [model set_model set_grad_enabled grad_enabled].
    change (forward _ (Single3 x)) with (forward (model st) (Single3 x)).
    rewrite F. cbn [logits].
    rewrite bind_unfold. unfold lift at 1. cbn [getitem nth_error].
    rewrite bind_unfold. unfold lift at 1. cbn [Tensor.argmax].
    rewrite (argmax_from_keeps 0 1 v0 rest Hrest).
    rewrite bind_unfold. unfold lift at 1. cbn [getitem nth_error classes].
    rewrite bind_unfold. unfold lift at 1. rewrite Ga.
    unfold print. reflexivity.
  - split; [exact La | reflexivity].
Qed.

Lemma inference_predicts_first_class_on_ties_witness :
  getitem (samples (test_data Tiny.source)) 0 = Ok (Tiny.pixel 5, 0)
  /\ forward (model Small.tie_st) (Single3 (Tiny.pixel 5)) = Ok [[10%Q; 10%Q; 3%Q]]
  /\ Forall (fun v => (v <= 10)%Q) [10%Q; 3%Q]
  /\ exists actual st',
       inference_cell Tiny.source Small.tie_st = Ok (tt, st')
       /\ classes !! 0 = Some actual
       /\ stdout st' = stdout Small.tie_st ++ [LPredicted "T-shirt/top" actual].
Proof.
  assert (H1 : getitem (samples (test_data Tiny.source)) 0 = Ok (Tiny.pixel 5, 0))
    by reflexivity.
  assert (H2 : forward (model Small.tie_st) (Single3 (Tiny.pixel 5))
               = Ok [[10%Q; 10%Q; 3%Q]])
    by (vm_compute; reflexivity).
  assert (H3 : Forall (fun v => (v <= 10)%Q) [10%Q; 3%Q])
    by (repeat constructor; unfold Qle; simpl; lia).
  assert (H4 : 0 < 10) by lia.
  split; [exact H1|]. split; [exact H2|]. split; [exact H3|].
  exact (inference_predicts_first_class_on_ties Tiny.source Small.tie_st (Tiny.pixel 5) 0
           10%Q [10%Q; 3%Q] [] H1 H2 H3 H4).
Defined.

(** ** Loading checkpoints *)

(** X14: the loading cell needs the checkpoint file: when no file was saved
    at "data/model.pth" it raises [FileNotFoundError], whatever the random
    source of the fresh model. *)
Theorem loading_cell_needs_the_file (rng : nat -> nat -> nat -> Q) (st : State) :
  files st !! "data/model.pth"%string = None ->
  loading_cell rng st = Raise FileNotFoundError.
Proof.
  intros H. unfold loading_cell. rewrite bind_unfold. unfold put_model.
  rewrite bind_unfold. unfold torch_load. cbn [files set_model]. by rewrite H.
Qed.

Lemma loading_cell_needs_the_file_witness :
  files Tiny.st0 !! "data/model.pth"%string = None
  /\ loading_cell (fun _ _ _ => 0%Q) Tiny.st0 = Raise FileNotFoundError.
Proof.
  assert (H : files Tiny.st0 !! "data/model.pth"%string = None) by reflexivity.
  split; [exact H|].
  exact (loading_cell_needs_the_file (fun _ _ _ => 0%Q) Tiny.st0 H).
Defined.

Lemma load_param_only_StateDictError (sd : StateDict) (i : nat) (p : NNParameter)
    (e : error) :
  load_param sd i p = Raise e -> e = StateDictError.
Proof. unfold load_param. repeat case_match; intros E; by simplify_eq. Qed.

Lemma Linear_update_only (f : nat -> NNParameter -> result NNParameter) (E : error)
    (i : nat) (l : Linear) (e : error) :
  (forall i p e, f i p = Raise e -> e = E) ->
  Linear_update f i l = Raise e -> e = E.
Proof.
  intros Honly. unfold Linear_update.
  destruct (f i (weight l)) as [w|e1] eqn:E1; cbn [rbind].
  - destruct (f (S i) (bias l)) as [b|e2] eqn:E2; cbn [rbind]; [done|].
    intros ?. simplify_eq. by eapply Honly.
  - intros ?. simplify_eq. by eapply Honly.
Qed.

Lemma Linear_update_raise (f : nat -> NNParameter -> result NNParameter) (E : error)
    (i : nat) (l : Linear) :
  (forall i p e, f i p = Raise e -> e = E) ->
  f i (weight l) = Raise E \/ f (S i) (bias l) = Raise E ->
  Linear_update f i l = Raise E.
Proof.
  intros Honly [H|H]; unfold Linear_update.
  - by rewrite H.
  - rewrite H. destruct (f i (weight l)) as [w|e] eqn:E1; cbn [rbind]; [done|].
    by rewrite (Honly _ _ _ E1).
Qed.

Lemma update_parameters_raise (f : nat -> NNParameter -> result NNParameter) (E : error)
    (m : NeuralNetwork) (i : nat) (p : NNParameter) :
  (forall i p e, f i p = Raise e -> e = E) ->
  parameters m !! i = Some p -> f i p = Raise E ->
  update_parameters f m = Raise E.
Proof.
  intros Honly Hp Hf. unfold update_parameters.
  assert (L0 : forall e, Linear_update f 0 (fc0 m) = Raise e -> e = E)
    by (intros e; by apply Linear_update_only).
  assert (L2 : forall e, Linear_update f 2 (fc2 m) = Raise e -> e = E)
    by (intros e; by apply Linear_update_only).
  destruct i as [|[|[|[|[|[|i]]]]]]; simplify_eq/=.
  - rewrite (Linear_update_raise f E 0 (fc0 m)); auto.
  - rewrite (Linear_update_raise f E 0 (fc0 m)); auto.
  - destruct (Linear_update f 0 (fc0 m)) as [l0|e] eqn:E0; cbn [rbind];
      [|by rewrite (L0 e)].
    rewrite (Linear_update_raise f E 2 (fc2 m)); auto.
  - destruct (Linear_update f 0 (fc0 m)) as [l0|e] eqn:E0; cbn [rbind];
      [|by rewrite (L0 e)].
    rewrite (Linear_update_raise f E 2 (fc2 m)); auto.
  - destruct (Linear_update f 0 (fc0 m)) as [l0|e] eqn:E0; cbn [rbind];
      [|by rewrite (L0 e)].
    destruct (Linear_update f 2 (fc2 m)) as [l2|e] eqn:E2; cbn [rbind];
      [|by rewrite (L2 e)].
    rewrite (Linear_update_raise f E 4 (fc4 m)); auto.
  - destruct (Linear_update f 0 (fc0 m)) as [l0|e] eqn:E0; cbn [rbind];
      [|by rewrite (L0 e)].
    destruct (Linear_update f 2 (fc2 m)) as [l2|e] eqn:E2; cbn [rbind];
      [|by rewrite (L2 e)].
    rewrite (Linear_update_raise f E 4 (fc4 m)); auto.
Qed.

(** Loading is strict.  [load_state_dict] raises as soon as the
    dictionary lacks the name of one of the model's parameters, or holds
    under that name a tensor of another shape than the parameter, or has a
    key that names no parameter of the model. *)
Theorem load_state_dict_is_strict (sd : StateDict) (st : State)
    (i : nat) (name : string) (p : NNParameter) :
  parameter_names !! i = Some name ->
  parameters (model st) !! i = Some p ->
  assoc name sd = None
  \/ (exists v, assoc name sd = Some v /\ Tensor.shape v <> Tensor.shape (data p))
  \/ (exists k, In k (map fst sd) /\ ~ In k parameter_names) ->
  load_state_dict sd st = Raise StateDictError.
Proof.
  intros Hn Hp H. unfold load_state_dict.
  destruct (forallb _ (map fst sd)) eqn:K; [|done].
  assert (Hname : nth i parameter_names ""%string = name)
    by (by apply nth_lookup_Some).
  destruct H as [H|[(v & Hv & Hs)|(k & Hk & Hnot)]].
  - rewrite (update_parameters_raise (load_param sd) StateDictError (model st) i p); auto.
    + intros j q e. apply load_param_only_StateDictError.
    + unfold load_param. by rewrite Hname, H.
  - rewrite (update_parameters_raise (load_param sd) StateDictError (model st) i p); auto.
    + intros j q e. apply load_param_only_StateDictError.
    + unfold load_param. rewrite Hname, Hv. by rewrite decide_False.
  - exfalso. apply Hnot.
    pose proof (proj1 (forallb_forall _ _) K k Hk) as Hex.
    apply existsb_exists in Hex as (n & Hin & Heq). apply String.eqb_eq in Heq.
    by subst.
Qed.

Lemma load_state_dict_is_strict_witness :
  parameter_names !! 1 = Some "linear_relu_stack.0.bias"%string
  /\ assoc "linear_relu_stack.0.bias"%string
           [("linear_relu_stack.0.weight"%string, Tensor.T2 [[1%Q]])] = None
  /\ load_state_dict [("linear_relu_stack.0.weight"%string, Tensor.T2 [[1%Q]])] Tiny.st0
     = Raise StateDictError.
Proof.
  assert (H1 : parameter_names !! 1 = Some "linear_relu_stack.0.bias"%string)
    by reflexivity.
  assert (H2 : parameters (model Tiny.st0) !! 1 = Some (bias (fc0 Tiny.net)))
    by reflexivity.
  assert (H3 : assoc "linear_relu_stack.0.bias"%string
                     [("linear_relu_stack.0.weight"%string, Tensor.T2 [[1%Q]])] = None)
    by reflexivity.
  split; [exact H1|]. split; [exact H3|].
  exact (load_state_dict_is_strict _ Tiny.st0 1 _ _ H1 H2 (or_introl H3)).
Defined.

Lemma param_eta (p : NNParameter) : {| data := data p; grad := grad p |} = p.
Proof. by destruct p. Qed.

(** Loading the state dictionary of [m] into a model whose parameters have
    the shapes of those of [m]. *)
Lemma load_matching (m m2 : NeuralNetwork) :
  (forall i pm p, parameters m !! i = Some pm -> parameters m2 !! i = Some p ->
                  Tensor.shape (data pm) = Tensor.shape (data p)) ->
  update_parameters (load_param (state_dict m)) m2
  = Ok (map_parameters
          (fun i p => {| data := nth i (values m) (Tensor.T1 []); grad := grad p |}) m2).
Proof.
  intros Hshape. apply update_parameters_ok. intros i p Hp. unfold load_param.
  assert (A : assoc (nth i parameter_names ""%string) (state_dict m)
              = Some (nth i (values m) (Tensor.T1 []))
              /\ exists pm, parameters m !! i = Some pm
                            /\ data pm = nth i (values m) (Tensor.T1 [])).
  { apply lookup_lt_Some in Hp. cbn [parameters length] in Hp.
    destruct i as [|[|[|[|[|[|i]]]]]]; [..|lia];
      (split; [reflexivity | eexists; split; reflexivity]). }
  destruct A as (-> & pm & Hpm & <-).
  rewrite decide_True; [done|]. by eapply Hshape.
Qed.

(** Loading a model's own state dictionary into it succeeds and
    changes neither a value nor a gradient buffer. *)
Theorem load_own_state_dict (st : State) :
  exists st',
    load_state_dict (state_dict (model st)) st = Ok (tt, st')
    /\ parameters (model st') = parameters (model st)
    /\ training (model st') = training (model st)
    /\ stdout st' = stdout st.
Proof.
  eexists. split.
  - unfold load_state_dict.
    replace (forallb _ (map fst (state_dict (model st)))) with true by reflexivity.
    rewrite (load_matching (model st) (model st)); [reflexivity|].
    intros i pm p H1 H2. congruence.
  - split; [|done]. cbn [model set_model]. unfold parameters, map_parameters, Linear_map.
    cbn [fc0 fc2 fc4 weight bias values map nth parameters].
    by rewrite !param_eta.
Qed.

(** X15: a saved model comes back.  After the saving cell and the loading
    cell, run on a model of the notebook's widths, the file holds the state
    dictionary of the saved model, the new model has that state dictionary,
    no gradient buffer, and is in training mode (the constructor's mode). *)
Theorem saved_model_reloads (rng : nat -> nat -> nat -> Q) (st : State) :
  net_dims (model st) (28 * 28) 512 512 10 = true ->
  exists st',
    (saving_cell;; loading_cell rng) st = Ok (tt, st')
    /\ state_dict (model st') = state_dict (model st)
    /\ Forall (fun p => grad p = None) (parameters (model st'))
    /\ training (model st') = true
    /\ files st' !! "data/model.pth"%string = Some (state_dict (model st))
    /\ stdout st' = stdout st ++ [LSaved].
Proof.
  intros D. set (m := model st). set (sd := state_dict m).
  eexists. split.
  - rewrite bind_unfold. unfold saving_cell. rewrite bind_unfold. unfold get_model.
    rewrite bind_unfold. unfold torch_save. fold m. fold sd.
    unfold print at 1. unfold loading_cell. rewrite bind_unfold. unfold put_model.
    rewrite bind_unfold. unfold torch_load.
    cbn [files set_files add_line set_model]. rewrite lookup_insert_eq.
    unfold load_state_dict. cbn [model].
    replace (forallb _ (map fst sd)) with true by reflexivity.
    change (model (set_model (NeuralNetwork_init rng) _)) with (NeuralNetwork_init rng).
    unfold sd. rewrite (load_matching m (NeuralNetwork_init rng)); [reflexivity|].
    intros i pm p H1 H2.
    exact (net_dims_shapes m (NeuralNetwork_init rng) _ _ _ _ i pm p D
             (NeuralNetwork_init_dims rng) H1 H2).
  - split; [reflexivity|]. split; [repeat constructor|]. split; [reflexivity|].
    split; [|reflexivity]. cbn [files set_model set_files add_line].
    by rewrite lookup_insert_eq.
Qed.

Lemma saved_model_reloads_witness :
  net_dims (model Tiny.zero_st) (28 * 28) 512 512 10 = true
  /\ exists st',
       (saving_cell;; loading_cell (fun _ _ _ => 1%Q)) Tiny.zero_st = Ok (tt, st')
       /\ state_dict (model st') = state_dict (model Tiny.zero_st)
       /\ Forall (fun p => grad p = None) (parameters (model st'))
       /\ training (model st') = true
       /\ files st' !! "data/model.pth"%string = Some (state_dict (model Tiny.zero_st))
       /\ stdout st' = stdout Tiny.zero_st ++ [LSaved].
Proof.
  assert (D : net_dims (model Tiny.zero_st) (28 * 28) 512 512 10 = true)
    by (vm_compute; reflexivity).
  split; [exact D|].
  exact (saved_model_reloads (fun _ _ _ => 1%Q) Tiny.zero_st D).
Defined.

Lemma repeat_head_inj (a b n : nat) : 0 < n -> repeat a n = repeat b n -> a = b.
Proof. destruct n; [lia|]. cbn [repeat]. congruence. Qed.

(** X16: a checkpoint of a network of other widths is refused.  When the
    file holds the state dictionary of a model whose widths are not 784,
    512, 512, 10, the loading cell does not complete: it raises the error
    of [load_state_dict]. *)
Theorem loading_cell_rejects_other_widths (rng : nat -> nat -> nat -> Q)
    (m : NeuralNetwork) (st : State) (d0 d1 d2 d3 : nat) :
  files st !! "data/model.pth"%string = Some (state_dict m) ->
  net_dims m d0 d1 d2 d3 = true ->
  (d0, d1, d2, d3) <> (28 * 28, 512, 512, 10) ->
  loading_cell rng st = Raise StateDictError.
Proof.
  intros Hf D Hne. unfold loading_cell. rewrite bind_unfold. unfold put_model.
  rewrite bind_unfold. unfold torch_load. cbn [files set_model]. rewrite Hf.
  unfold load_state_dict.
  replace (forallb _ (map fst (state_dict m))) with true by reflexivity.
  change (model (set_model (NeuralNetwork_init rng) st)) with (NeuralNetwork_init rng).
  assert (R : update_parameters (load_param (state_dict m)) (NeuralNetwork_init rng)
              = Raise StateDictError); [|by rewrite R].
  pose proof (NeuralNetwork_init_dims rng) as DI.
  unfold net_dims in D, DI.
  apply andb_prop in D as [D D4]. apply andb_prop in D as [D0 D2].
  apply andb_prop in DI as [DI DI4]. apply andb_prop in DI as [DI0 DI2].
  apply Linear_dims_shapes in D0 as [W0 B0], D2 as [W2 B2], D4 as [W4 B4].
  apply Linear_dims_shapes in DI0 as [WI0 BI0], DI2 as [WI2 BI2], DI4 as [WI4 BI4].
  assert (Only : forall i p e, load_param (state_dict m) i p = Raise e -> e = StateDictError)
    by (intros i p e; apply load_param_only_StateDictError).
  destruct (decide (d1 = 512)) as [E1|N1].
  - destruct (decide (d2 = 512)) as [E2|N2].
    + destruct (decide (d3 = 10)) as [E3|N3].
      * assert (N0 : d0 <> 28 * 28) by (intros ->; apply Hne; congruence).
        apply (update_parameters_raise _ _ _ 0 (weight (fc0 (NeuralNetwork_init rng))));
          [exact Only | reflexivity |].
        unfold load_param.
        replace (assoc _ _) with (Some (data (weight (fc0 m)))) by reflexivity.
        rewrite decide_False; [done|]. rewrite W0, WI0, E1. intros H.
        apply N0, (repeat_head_inj _ _ 512); [lia | congruence].
      * apply (update_parameters_raise _ _ _ 5 (bias (fc4 (NeuralNetwork_init rng))));
          [exact Only | reflexivity |].
        unfold load_param.
        replace (assoc _ _) with (Some (data (bias (fc4 m)))) by reflexivity.
        rewrite decide_False; [done|]. rewrite B4, BI4. congruence.
    + apply (update_parameters_raise _ _ _ 3 (bias (fc2 (NeuralNetwork_init rng))));
        [exact Only | reflexivity |].
      unfold load_param.
      replace (assoc _ _) with (Some (data (bias (fc2 m)))) by reflexivity.
      rewrite decide_False; [done|]. rewrite B2, BI2. congruence.
  - apply (update_parameters_raise _ _ _ 1 (bias (fc0 (NeuralNetwork_init rng))));
      [exact Only | reflexivity |].
    unfold load_param.
    replace (assoc _ _) with (Some (data (bias (fc0 m)))) by reflexivity.
    rewrite decide_False; [done|]. rewrite B0, BI0. congruence.
Qed.

Lemma loading_cell_rejects_other_widths_witness :
  files Small.st_tiny_checkpoint !! "data/model.pth"%string = Some (state_dict Tiny.net)
  /\ net_dims Tiny.net 1 1 1 1 = true
  /\ loading_cell (fun _ _ _ => 0%Q) Small.st_tiny_checkpoint = Raise StateDictError.
Proof.
  assert (H1 : files Small.st_tiny_checkpoint !! "data/model.pth"%string
               = Some (state_dict Tiny.net)) by reflexivity.
  assert (H2 : net_dims Tiny.net 1 1 1 1 = true) by reflexivity.
  assert (H3 : (1, 1, 1, 1) <> (28 * 28, 512, 512, 10)) by discriminate.
  split; [exact H1|]. split; [exact H2|].
  exact (loading_cell_rejects_other_widths (fun _ _ _ => 0%Q) Tiny.net
           Small.st_tiny_checkpoint 1 1 1 1 H1 H2 H3).
Defined.

(** ** The progress lines of the notebook's run *)

Lemma notebook_batch_count (source : bool -> list (Image * nat)) :
  length (source true) = 600 * 100 ->
  length (batches (train_dataloader source)) = 938.
Proof.
  intros HN. unfold batches. rewrite length_map.
  rewrite batch_sampler_count
    by (cbv [dl_batch_size train_dataloader batch_size]; lia).
  cbv [samples dataset dl_batch_size train_dataloader training_data FashionMNIST
       batch_size].
  rewrite HN. symmetry. apply (Nat.div_unique _ _ _ 31); lia.
Qed.

Lemma notebook_full_batch (source : bool -> list (Image * nat)) (k : nat) :
  length (source true) = 600 * 100 -> k < 937 ->
  length (fst (nth k (batches (train_dataloader source)) ([], []))) = 64.
Proof.
  intros HN Hk. pose proof (notebook_batch_count source HN) as Hlen.
  destruct (lookup_lt_is_Some_2 (batches (train_dataloader source)) k) as [Xy HXy]; [lia|].
  rewrite (nth_lookup_Some _ _ _ _ HXy).
  unfold batches in HXy, Hlen. rewrite length_map in Hlen.
  rewrite list_lookup_fmap in HXy.
  destruct (batch_sampler _ _ _ !! k) as [b|] eqn:Eb; [|discriminate].
  injection HXy as <-. cbn [fst]. rewrite length_map.
  cbv [dl_batch_size train_dataloader dataset samples training_data FashionMNIST]
    in Eb, Hlen.
  eapply (batch_sampler_full batch_size); [|exact Eb|rewrite Hlen; lia].
  unfold batch_size. cbn [length]. lia.
Qed.

(** X17: in the notebook's configuration, 60000 training examples in
    batches of 64, one training pass prints exactly ten progress lines,
    whose bracketed numbers are 0, 6400, 12800, ..., 57600 out of 60000 (as
    in the recorded output), whatever the images, the model of fitting
    widths and the loss. *)
Theorem training_pass_prints_ten_lines
    (autograd : LossFn -> list Tensor -> Input -> list nat -> nat -> Tensor)
    (loss_fn : LossFn) (source : bool -> list (Image * nat)) (st : State)
    (d0 d1 d2 d3 : nat) :
  autograd_shaped autograd ->
  grad_enabled st = true ->
  grads_ok (model st) = true ->
  net_dims (model st) d0 d1 d2 d3 = true ->
  length (source true) = 600 * 100 ->
  Forall (fun s => length (concat (concat (fst s))) = d0) (source true) ->
  exists st' lines,
    train autograd (train_dataloader source) loss_fn optimizer st = Ok (tt, st')
    /\ stdout st' = stdout st ++ lines
    /\ map progress_counts lines
       = map (fun i => Some (64 * 100 * i, 600 * 100)) (seq 0 10).
Proof.
  intros A GE G D HN Hs.
  assert (Hs' : Forall (fun s => length (concat (concat (fst s))) = d0)
                       (samples (dataset (train_dataloader source)))) by exact Hs.
  destruct (train_loop_ok autograd A loss_fn optimizer
              (length (samples (dataset (train_dataloader source)))) d0 d1 d2 d3
              (batches (train_dataloader source)) 0 st GE G D (batches_sizes _ _ Hs'))
    as (st' & E & _ & _ & Eo & _).
  eexists. eexists. split; [exact E|]. split; [exact Eo|].
  rewrite progress_lines_closed, (notebook_batch_count source HN).
  replace (List.filter (fun j => (0 + j) mod 100 =? 0) (seq 0 938))
    with [0; 100; 200; 300; 400; 500; 600; 700; 800; 900] by (vm_compute; reflexivity).
  cbn [samples dataset train_dataloader training_data FashionMNIST].
  cbn [map progress_counts seq].
  rewrite !(notebook_full_batch source) by (exact HN || lia).
  rewrite HN. generalize (600 * 100). intros N.
  repeat (apply (f_equal2 cons);
          [apply (f_equal Some), (f_equal2 pair); [lia | reflexivity]|]).
  reflexivity.
Qed.

Lemma training_pass_prints_ten_lines_witness :
  length (Small.big_source true) = 600 * 100
  /\ net_dims (model Tiny.st0) 1 1 1 1 = true
  /\ exists st' lines,
       train Tiny.autograd (train_dataloader Small.big_source) Tiny.loss_fn optimizer
             Tiny.st0 = Ok (tt, st')
       /\ stdout st' = stdout Tiny.st0 ++ lines
       /\ map progress_counts lines
          = map (fun i => Some (64 * 100 * i, 600 * 100)) (seq 0 10).
Proof.
  assert (HN : length (Small.big_source true) = 600 * 100).
  { unfold Small.big_source. apply repeat_length. }
  assert (Hs : Forall (fun s => length (concat (concat (fst s))) = 1)
                      (Small.big_source true)).
  { apply List.Forall_forall. intros s Hin. unfold Small.big_source in Hin.
    apply repeat_spec in Hin. subst s. reflexivity. }
  split; [exact HN|]. split; [reflexivity|].
  exact (training_pass_prints_ten_lines Tiny.autograd Tiny.loss_fn Small.big_source
           Tiny.st0 1 1 1 1 Tiny_autograd_shaped eq_refl eq_refl eq_refl HN Hs).
Defined.

(** ** What an epoch reports *)

(** X18: the accuracy printed at the end of an epoch is measured on the
    training split and on the model as that epoch's training pass left it:
    it is 100 times the number of training examples that this model
    classifies correctly, divided by the number of training examples. *)
Theorem epoch_reports_accuracy_on_training_data
    (autograd : LossFn -> list Tensor -> Input -> list nat -> nat -> Tensor)
    (loss_fn : LossFn) (source : bool -> list (Image * nat)) (t : nat) (st : State)
    (d0 d1 d2 d3 : nat) :
  autograd_shaped autograd ->
  0 < d3 ->
  0 < length (source true) ->
  Forall (fun s => length (concat (concat (fst s))) = d0) (source true) ->
  grad_enabled st = true ->
  grads_ok (model st) = true ->
  net_dims (model st) d0 d1 d2 d3 = true ->
  exists st' lines accuracy avg_loss,
    epoch autograd loss_fn source t st = Ok (tt, st')
    /\ stdout st' = stdout st ++ LEpoch (t + 1) :: lines ++ [LTest accuracy avg_loss]
    /\ (accuracy
        == 100 * (inject_Z (Z.of_nat
                    (correct_count
                       (train_pass autograd loss_fn optimizer
                          (batches (train_dataloader source)) (model st))
                       (source true)))
                  / inject_Z (Z.of_nat (length (source true)))))%Q.
Proof.
  intros A H3 Hn Hs GE G D.
  assert (Hs' : Forall (fun s => length (concat (concat (fst s))) = d0)
                       (samples (dataset (train_dataloader source)))) by exact Hs.
  destruct (train_loop_ok autograd A loss_fn optimizer
              (length (samples (dataset (train_dataloader source)))) d0 d1 d2 d3
              (batches (train_dataloader source)) 0 (add_line (LEpoch (t + 1)) st)
              GE G D (batches_sizes _ _ Hs'))
    as (st1 & E1 & Em & _ & Eo & _).
  cbn [model stdout add_line] in Em, Eo.
  fold (train_pass autograd loss_fn optimizer (batches (train_dataloader source)) (model st))
    in Em.
  assert (D1 : net_dims (model st1) d0 d1 d2 d3 = true).
  { rewrite Em. unfold train_pass.
    generalize (batches (train_dataloader source)). intros bs. revert D.
    generalize (model st). induction bs as [|Xy bs IH]; intros m D; [done|].
    cbn [fold_left]. apply IH. by rewrite trained_model_dims. }
  destruct (test_completes loss_fn (test_dataloader source) st1 d0 d1 d2 d3)
    as (l' & c' & E2 & Hc); [exact Hn | exact D1 | exact H3 | exact Hs |].
  eexists. eexists. eexists. eexists. split; [|split].
  - unfold epoch. rewrite bind_unfold. unfold print at 1.
    rewrite bind_unfold. unfold train, enumerate. rewrite E1. exact E2.
  - cbn [stdout]. rewrite Eo.
    rewrite <- (app_assoc (stdout st ++ [LEpoch (t + 1)]) _ [LTest _ _]).
    rewrite <- (app_assoc (stdout st) [LEpoch (t + 1)]). cbn [app]. reflexivity.
  - rewrite Hc, Em. reflexivity.
Qed.

Lemma epoch_reports_accuracy_on_training_data_witness :
  0 < length (Tiny.source true)
  /\ grads_ok (model Tiny.st0) = true
  /\ net_dims (model Tiny.st0) 1 1 1 1 = true
  /\ exists st' lines accuracy avg_loss,
       epoch Tiny.autograd Tiny.loss_fn Tiny.source 0 Tiny.st0 = Ok (tt, st')
       /\ stdout st' = stdout Tiny.st0 ++ LEpoch (0 + 1) :: lines ++ [LTest accuracy avg_loss]
       /\ (accuracy
           == 100 * (inject_Z (Z.of_nat
                       (correct_count
                          (train_pass Tiny.autograd Tiny.loss_fn optimizer
                             (batches (train_dataloader Tiny.source)) (model Tiny.st0))
                          (Tiny.source true)))
                     / inject_Z (Z.of_nat (length (Tiny.source true)))))%Q.
Proof.
  split; [simpl; lia|]. split; [reflexivity|]. split; [reflexivity|].
  apply (epoch_reports_accuracy_on_training_data Tiny.autograd Tiny.loss_fn Tiny.source
           0 Tiny.st0 1 1 1 1 Tiny_autograd_shaped).
  - lia.
  - simpl; lia.
  - repeat constructor.
  - reflexivity.
  - reflexivity.
  - reflexivity.
Defined.
